(** * local_storage_cache: the desktop database bridges

    A shallow embedding of the two desktop implementations of the
    [local_storage_cache] platform channel:

    - [windows/database_manager.cpp] and
      [windows/local_storage_cache_windows_plugin.cpp]  (module [Windows]);
    - [linux/database_manager.cc] and
      [linux/local_storage_cache_linux_plugin.cc]       (module [Linux]).

    Both drive an embedded SQLite engine through its C API.  The engine is
    not part of the repository: it is an interface ([Sqlite3], a type
    class), and every statement about the bridges is proved for an
    arbitrary engine.  A small executable engine ([Toy]) instantiates the
    interface so that the statements can be run on concrete inputs. *)

From Stdlib Require Import ZArith List String Ascii Bool Lia.
Import ListNotations.

Open Scope string_scope.
Open Scope Z_scope.

Set Warnings "-register-all".

(** ** Machine integers and doubles *)

(** [int64_t]: a value of [Z] inside the signed 64-bit range. *)
Definition int64_min : Z := - 2 ^ 63.
Definition int64_max : Z := 2 ^ 63 - 1.
Definition is_int64 (z : Z) : Prop := int64_min <= z <= int64_max.

(** Two's-complement wrap-around into the signed 64-bit range. *)
Definition wrap64 (z : Z) : Z := (z + 2 ^ 63) mod 2 ^ 64 - 2 ^ 63.

(** A [double] is carried around, never computed with: it is represented
    by its IEEE-754 bit pattern. *)
Record double : Type := Double { double_bits : Z }.

(** ** The SQLite C API, as far as the bridges use it *)

(** Result codes and fundamental datatypes of [sqlite3.h]. *)
Definition SQLITE_OK : Z := 0.
Definition SQLITE_ERROR : Z := 1.
Definition SQLITE_MISUSE : Z := 21.
Definition SQLITE_ROW : Z := 100.
Definition SQLITE_DONE : Z := 101.

Definition SQLITE_INTEGER : Z := 1.
Definition SQLITE_FLOAT : Z := 2.
Definition SQLITE_TEXT : Z := 3.
Definition SQLITE_BLOB : Z := 4.
Definition SQLITE_NULL : Z := 5.

(** [sqlite3] is the state behind an open connection and [sqlite3_stmt] the
    state behind a prepared statement.  A call that receives the connection
    may change it, so it returns the connection it leaves behind; the bind
    functions work on the statement alone, the column accessors only read.
    Return codes the callers drop are not modelled. *)
Class Sqlite3 : Type := {
  sqlite3 : Type;
  sqlite3_stmt : Type;
  sqlite3_open : string -> Z * option sqlite3;
  sqlite3_exec : sqlite3 -> string -> sqlite3;
  sqlite3_prepare_v2 : sqlite3 -> string -> Z * sqlite3 * sqlite3_stmt;
  sqlite3_bind_text : sqlite3_stmt -> Z -> string -> sqlite3_stmt;
  sqlite3_bind_int : sqlite3_stmt -> Z -> Z -> sqlite3_stmt;
  sqlite3_bind_int64 : sqlite3_stmt -> Z -> Z -> sqlite3_stmt;
  sqlite3_bind_double : sqlite3_stmt -> Z -> double -> sqlite3_stmt;
  sqlite3_bind_null : sqlite3_stmt -> Z -> sqlite3_stmt;
  sqlite3_step : sqlite3 -> sqlite3_stmt -> Z * sqlite3 * sqlite3_stmt;
  sqlite3_finalize : sqlite3 -> sqlite3_stmt -> sqlite3;
  sqlite3_last_insert_rowid : sqlite3 -> Z;
  sqlite3_changes : sqlite3 -> Z;
  sqlite3_column_count : sqlite3_stmt -> Z;
  sqlite3_column_name : sqlite3_stmt -> Z -> string;
  sqlite3_column_type : sqlite3_stmt -> Z -> Z;
  sqlite3_column_int64 : sqlite3_stmt -> Z -> Z;
  sqlite3_column_double : sqlite3_stmt -> Z -> double;
  sqlite3_column_text : sqlite3_stmt -> Z -> string;
  (** [sqlite3_column_int64] returns a [sqlite3_int64]. *)
  sqlite3_column_int64_range :
    forall st i, is_int64 (sqlite3_column_int64 st i)
}.

(** [std::string::c_str()] handed to an API that reads up to the terminating
    NUL (a length argument of [-1]), and the construction of a
    [std::string] from a [const char*]: the characters before the first
    NUL. *)
Fixpoint c_str (s : string) : string :=
  match s with
  | EmptyString => EmptyString
  | String c s' => if Ascii.eqb c zero then EmptyString else String c (c_str s')
  end.

(** The columns [0 .. n-1] visited by [for (int i = 0; i < n; i++)]. *)
Definition column_indices (n : Z) : list Z :=
  map Z.of_nat (seq 0 (Z.to_nat n)).

(** ** Cursors

    [Emits db st rows db' st'] : stepping the statement [st] on the
    connection [db] answers [SQLITE_ROW] once for each element of [rows]
    (the statement as it stands on that row, in order) and then answers
    something else, leaving [db'] and [st'].  This is what stepping a
    cursor to completion means; an engine may also never complete. *)
Section Cursor.
Context {E : Sqlite3}.

Inductive Emits : sqlite3 -> sqlite3_stmt -> list sqlite3_stmt ->
                  sqlite3 -> sqlite3_stmt -> Prop :=
| Emits_done db st rc db' st' :
    sqlite3_step db st = (rc, db', st') ->
    rc <> SQLITE_ROW ->
    Emits db st [] db' st'
| Emits_row db st db1 st1 rows db' st' :
    sqlite3_step db st = (SQLITE_ROW, db1, st1) ->
    Emits db1 st1 rows db' st' ->
    Emits db st (st1 :: rows) db' st'.

End Cursor.

(** ** Windows: [namespace local_storage_cache_windows] *)
Module Windows.

(** [flutter::EncodableValue], a [std::variant]; the alternatives the
    bridge meets. [EncodableMap] is a [std::map]: its entries are listed in
    iteration order. *)
Inductive EncodableValue : Type :=
| EvNull                                   (* std::monostate *)
| EvBool (b : bool)
| EvInt32 (z : Z)
| EvInt64 (z : Z)
| EvDouble (d : double)
| EvString (s : string)
| EvList (l : list EncodableValue)
| EvMap (m : list (EncodableValue * EncodableValue)).

Definition EncodableList : Type := list EncodableValue.
Definition EncodableMap : Type := list (EncodableValue * EncodableValue).

(** Position of the alternative held, which [operator<] on variants
    compares first. *)
Definition variant_index (v : EncodableValue) : Z :=
  match v with
  | EvNull => 0 | EvBool _ => 1 | EvInt32 _ => 2 | EvInt64 _ => 3
  | EvDouble _ => 4 | EvString _ => 5 | EvList _ => 10 | EvMap _ => 11
  end.

(** [std::get_if<T>(&v)] *)
Definition get_if_string (v : EncodableValue) : option string :=
  match v with EvString s => Some s | _ => None end.
Definition get_if_int32 (v : EncodableValue) : option Z :=
  match v with EvInt32 z => Some z | _ => None end.
Definition get_if_int64 (v : EncodableValue) : option Z :=
  match v with EvInt64 z => Some z | _ => None end.
Definition get_if_double (v : EncodableValue) : option double :=
  match v with EvDouble d => Some d | _ => None end.
Definition get_if_bool (v : EncodableValue) : option bool :=
  match v with EvBool b => Some b | _ => None end.
Definition get_if_map (v : EncodableValue) : option EncodableMap :=
  match v with EvMap m => Some m | _ => None end.

(** [EncodableValue(key) < k] and [>], as a three-way comparison: the
    alternative first, then the strings, byte by byte. *)
Definition key_compare (key : string) (k : EncodableValue) : comparison :=
  match k with
  | EvString s => String.compare key s
  | _ => Z.compare 5 (variant_index k)
  end.

(** [m.find(EncodableValue(key))]: the mapped value, [None] for [end()]. *)
Fixpoint EncodableMap_find (m : EncodableMap) (key : string)
  : option EncodableValue :=
  match m with
  | [] => None
  | (k, v) :: m' =>
      match key_compare key k with
      | Eq => Some v
      | _ => EncodableMap_find m' key
      end
  end.

(** [m[EncodableValue(key)] = value]: the entry of an equal key keeps its
    place and takes the value; a new key is entered at its place in the
    order. *)
Fixpoint EncodableMap_assign (m : EncodableMap) (key : string)
  (value : EncodableValue) : EncodableMap :=
  match m with
  | [] => [(EvString key, value)]
  | (k, v) :: m' =>
      match key_compare key k with
      | Lt => (EvString key, value) :: m
      | Eq => (k, value) :: m'
      | Gt => (k, v) :: EncodableMap_assign m' key value
      end
  end.

Section DatabaseManager.
Context {E : Sqlite3}.

(** [class DatabaseManager]; [database_ = None] is the null handle. *)
Record DatabaseManager : Type := mkDatabaseManager {
  database_path_ : string;
  database_ : option sqlite3
}.

Definition set_database (m : DatabaseManager) (db : option sqlite3)
  : DatabaseManager :=
  {| database_path_ := database_path_ m; database_ := db |}.

(** The constructor. *)
Definition new_DatabaseManager (database_path : string) : DatabaseManager :=
  {| database_path_ := database_path; database_ := None |}.

(** [Initialize]: the handle [sqlite3_open] leaves is stored whatever the
    result; the pragma runs on it when the open succeeded. *)
Definition Initialize (m : DatabaseManager) : bool * DatabaseManager :=
  let '(result, handle) := sqlite3_open (c_str (database_path_ m)) in
  if negb (result =? SQLITE_OK) then (false, set_database m handle)
  else
    (true,
     set_database m
       (option_map (fun db => sqlite3_exec db "PRAGMA foreign_keys = ON")
                   handle)).

(** [Close] *)
Definition Close (m : DatabaseManager) : DatabaseManager :=
  match database_ m with
  | Some _ => set_database m None
  | None => m
  end.

(** [GetPrefixedTableName] *)
Definition GetPrefixedTableName (table_name space : string) : string :=
  space ++ "_" ++ table_name.

(** First loop of [Insert]: the two streams and the [first] flag. *)
Definition Insert_columns_step (acc : string * string * bool)
  (pair : EncodableValue * EncodableValue) : string * string * bool :=
  let '(columns_stream, placeholders_stream, first) := acc in
  let columns_stream :=
    if negb first then columns_stream ++ ", " else columns_stream in
  let placeholders_stream :=
    if negb first then placeholders_stream ++ ", " else placeholders_stream in
  match get_if_string (fst pair) with
  | Some key => (columns_stream ++ key, placeholders_stream ++ "?", false)
  | None => (columns_stream, placeholders_stream, false)
  end.

(** The statement text [Insert] builds (the value of [sql]). *)
Definition Insert_sql (table_name : string) (data : EncodableMap)
  (space : string) : string :=
  let prefixed_table := GetPrefixedTableName table_name space in
  let '(columns_stream, placeholders_stream, _) :=
    fold_left Insert_columns_step data ("", "", true) in
  "INSERT INTO " ++ prefixed_table ++
  " (" ++ columns_stream ++ ") VALUES (" ++
  placeholders_stream ++ ")".

(** The chain of [get_if] tests that binds one value at [index]. *)
Definition Insert_bind_value (statement : sqlite3_stmt) (index : Z)
  (value : EncodableValue) : sqlite3_stmt :=
  match get_if_string value with
  | Some str_val => sqlite3_bind_text statement index (c_str str_val)
  | None =>
  match get_if_int32 value with
  | Some int_val => sqlite3_bind_int statement index int_val
  | None =>
  match get_if_int64 value with
  | Some int64_val => sqlite3_bind_int64 statement index int64_val
  | None =>
  match get_if_double value with
  | Some double_val => sqlite3_bind_double statement index double_val
  | None =>
  match get_if_bool value with
  | Some bool_val =>
      sqlite3_bind_int statement index (if bool_val then 1 else 0)
  | None => sqlite3_bind_null statement index
  end end end end end.

(** Second loop of [Insert]: the statement and [index]. *)
Definition Insert_bind_step (acc : sqlite3_stmt * Z)
  (pair : EncodableValue * EncodableValue) : sqlite3_stmt * Z :=
  let '(statement, index) := acc in
  (Insert_bind_value statement index (snd pair), index + 1).

Definition Insert_bind (statement : sqlite3_stmt) (data : EncodableMap)
  : sqlite3_stmt :=
  fst (fold_left Insert_bind_step data (statement, 1)).

(** [Insert]: the row id, or [-1]. *)
Definition Insert (m : DatabaseManager) (table_name : string)
  (data : EncodableMap) (space : string) : Z * DatabaseManager :=
  match database_ m with
  | None => (-1, m)
  | Some db =>
      let sql := Insert_sql table_name data space in
      let '(rc, db1, statement) := sqlite3_prepare_v2 db (c_str sql) in
      if negb (rc =? SQLITE_OK) then (-1, set_database m (Some db1))
      else
        let statement := Insert_bind statement data in
        let '(result, db2, statement) := sqlite3_step db1 statement in
        let db3 := sqlite3_finalize db2 statement in
        if negb (result =? SQLITE_DONE) then (-1, set_database m (Some db3))
        else (sqlite3_last_insert_rowid db3, set_database m (Some db3))
  end.

(** The [switch] on the column type in [Query]. *)
Definition Query_value (statement : sqlite3_stmt) (i : Z) : EncodableValue :=
  let column_type := sqlite3_column_type statement i in
  if column_type =? SQLITE_INTEGER then
    EvInt64 (sqlite3_column_int64 statement i)
  else if column_type =? SQLITE_FLOAT then
    EvDouble (sqlite3_column_double statement i)
  else if column_type =? SQLITE_TEXT then
    EvString (sqlite3_column_text statement i)
  else EvNull.

(** Body of the loop over the columns. *)
Definition Query_column (statement : sqlite3_stmt) (row : EncodableMap)
  (i : Z) : EncodableMap :=
  let column_name := sqlite3_column_name statement i in
  EncodableMap_assign row column_name (Query_value statement i).

Definition Query_row (statement : sqlite3_stmt) : EncodableMap :=
  let column_count := sqlite3_column_count statement in
  fold_left (Query_column statement) (column_indices column_count) [].

(** The [while (sqlite3_step(statement) == SQLITE_ROW)] loop; it need not
    end, so it is run for at most [fuel] steps, [None] when they do not
    suffice. *)
Fixpoint Query_loop (fuel : nat) (db : sqlite3) (statement : sqlite3_stmt)
  (results : EncodableList)
  : option (EncodableList * sqlite3 * sqlite3_stmt) :=
  match fuel with
  | O => None
  | S fuel' =>
      let '(rc, db', statement') := sqlite3_step db statement in
      if rc =? SQLITE_ROW then
        Query_loop fuel' db' statement'
                   (results ++ [EvMap (Query_row statement')])%list
      else Some (results, db', statement')
  end.

(** [Query] *)
Definition Query (fuel : nat) (m : DatabaseManager) (sql : string)
  : option (EncodableList * DatabaseManager) :=
  let results : EncodableList := [] in
  match database_ m with
  | None => Some (results, m)
  | Some db =>
      let '(rc, db1, statement) := sqlite3_prepare_v2 db (c_str sql) in
      if negb (rc =? SQLITE_OK) then
        Some (results, set_database m (Some db1))
      else
        match Query_loop fuel db1 statement results with
        | None => None
        | Some (results, db2, statement) =>
            Some (results,
                  set_database m (Some (sqlite3_finalize db2 statement)))
        end
  end.

(** [Update]: the arguments are not used. *)
Definition Update (m : DatabaseManager) (sql : string)
  (arguments : EncodableList) : Z * DatabaseManager :=
  match database_ m with
  | None => (0, m)
  | Some db =>
      let '(rc, db1, statement) := sqlite3_prepare_v2 db (c_str sql) in
      if negb (rc =? SQLITE_OK) then (0, set_database m (Some db1))
      else
        let '(_, db2, statement) := sqlite3_step db1 statement in
        let changes := sqlite3_changes db2 in
        (changes, set_database m (Some (sqlite3_finalize db2 statement)))
  end.

(** [Delete] *)
Definition Delete (m : DatabaseManager) (sql : string)
  (arguments : EncodableList) : Z * DatabaseManager :=
  Update m sql arguments.

End DatabaseManager.

(** What the handler hands to its [flutter::MethodResult]. *)
Inductive MethodResult : Type :=
| Success (result : option EncodableValue)
| Error (error_code error_message : string)
| NotImplemented.

Section Plugin.
Context {E : Sqlite3}.

(** [class LocalStorageCacheWindowsPlugin]: a [std::unique_ptr] to the
    manager, [None] when it is empty. *)
Record LocalStorageCacheWindowsPlugin : Type := mkPlugin {
  database_manager_ : option DatabaseManager
}.

(** The plugin as its constructor leaves it. *)
Definition new_Plugin : LocalStorageCacheWindowsPlugin :=
  {| database_manager_ := None |}.

(** [HandleMethodCall]: the reply and the plugin afterwards; [None] when
    the cursor of a query does not complete within [fuel] steps. *)
Definition HandleMethodCall (fuel : nat)
  (self : LocalStorageCacheWindowsPlugin)
  (method_name : string) (arguments : EncodableValue)
  : option (MethodResult * LocalStorageCacheWindowsPlugin) :=
  if String.eqb method_name "initialize" then
    match get_if_map arguments with
    | None => Some (Error "INVALID_ARGS" "Invalid arguments", self)
    | Some arguments =>
    match EncodableMap_find arguments "databasePath" with
    | None => Some (Error "INVALID_ARGS" "databasePath is required", self)
    | Some database_path_it =>
    match get_if_string database_path_it with
    | None =>
        Some (Error "INVALID_ARGS" "databasePath must be a string", self)
    | Some database_path =>
        let '(ok, m) := Initialize (new_DatabaseManager database_path) in
        let self := {| database_manager_ := Some m |} in
        if ok then Some (Success None, self)
        else Some (Error "INIT_ERROR" "Failed to initialize database", self)
    end end end
  else if String.eqb method_name "close" then
    match database_manager_ self with
    | Some m =>
        let _ := Close m in
        Some (Success None, {| database_manager_ := None |})
    | None => Some (Success None, self)
    end
  else if String.eqb method_name "insert" then
    match database_manager_ self with
    | None => Some (Error "NOT_INITIALIZED" "Database not initialized", self)
    | Some m =>
    match get_if_map arguments with
    | None => Some (Error "INVALID_ARGS" "Invalid arguments", self)
    | Some arguments =>
    let table_name_it := EncodableMap_find arguments "tableName" in
    let data_it := EncodableMap_find arguments "data" in
    let space_it := EncodableMap_find arguments "space" in
    match table_name_it, data_it with
    | Some table_name_v, Some data_v =>
        let table_name := get_if_string table_name_v in
        let data := get_if_map data_v in
        let space :=
          match space_it with
          | Some space_v => get_if_string space_v
          | None => None
          end in
        let space_str :=
          match space with Some s => s | None => "default" end in
        match table_name, data with
        | Some table_name, Some data =>
            let '(id, m) := Insert m table_name data space_str in
            let self := {| database_manager_ := Some m |} in
            if id >=? 0 then Some (Success (Some (EvInt64 id)), self)
            else Some (Error "INSERT_ERROR" "Failed to insert data", self)
        | _, _ => Some (Error "INVALID_ARGS" "Invalid argument types", self)
        end
    | _, _ =>
        Some (Error "INVALID_ARGS" "tableName and data are required", self)
    end end end
  else if String.eqb method_name "query" then
    match database_manager_ self with
    | None => Some (Error "NOT_INITIALIZED" "Database not initialized", self)
    | Some m =>
    match get_if_map arguments with
    | None => Some (Error "INVALID_ARGS" "Invalid arguments", self)
    | Some arguments =>
    match EncodableMap_find arguments "sql" with
    | None => Some (Error "INVALID_ARGS" "sql is required", self)
    | Some sql_v =>
    match get_if_string sql_v with
    | None => Some (Error "INVALID_ARGS" "sql must be a string", self)
    | Some sql =>
        match Query fuel m sql with
        | None => None
        | Some (query_result, m) =>
            Some (Success (Some (EvList query_result)),
                  {| database_manager_ := Some m |})
        end
    end end end end
  else if String.eqb method_name "saveSecureKey" then
    match get_if_map arguments with
    | None => Some (Error "INVALID_ARGS" "Invalid arguments", self)
    | Some arguments =>
        match EncodableMap_find arguments "key",
              EncodableMap_find arguments "value" with
        | Some _, Some _ => Some (Success None, self)
        | _, _ =>
            Some (Error "INVALID_ARGS" "key and value are required", self)
        end
    end
  else if String.eqb method_name "isBiometricAvailable" then
    Some (Success (Some (EvBool false)), self)
  else Some (NotImplemented, self).

End Plugin.
End Windows.

(** ** Linux: [linux/database_manager.cc] and the GObject plugin *)
Module Linux.

(** [FlValue]; the types the bridge meets.  An [FlValue] map keeps its
    entries in the order of their insertion.  The arguments of a call,
    which the caller owns, and the values of the replies are plain data;
    the values that [Query] creates and releases live in a store with
    reference counts (below). *)
Inductive FlValue : Type :=
| FvNull
| FvBool (b : bool)
| FvInt (z : Z)
| FvFloat (d : double)
| FvString (s : string)
| FvList (l : list FlValue)
| FvMap (m : list (FlValue * FlValue)).

Inductive FlValueType : Type :=
| FL_VALUE_TYPE_NULL | FL_VALUE_TYPE_BOOL | FL_VALUE_TYPE_INT
| FL_VALUE_TYPE_FLOAT | FL_VALUE_TYPE_STRING | FL_VALUE_TYPE_LIST
| FL_VALUE_TYPE_MAP.

Definition fl_value_get_type (v : FlValue) : FlValueType :=
  match v with
  | FvNull => FL_VALUE_TYPE_NULL | FvBool _ => FL_VALUE_TYPE_BOOL
  | FvInt _ => FL_VALUE_TYPE_INT | FvFloat _ => FL_VALUE_TYPE_FLOAT
  | FvString _ => FL_VALUE_TYPE_STRING | FvList _ => FL_VALUE_TYPE_LIST
  | FvMap _ => FL_VALUE_TYPE_MAP
  end.

Definition is_map (v : FlValue) : bool :=
  match v with FvMap _ => true | _ => false end.

(** Whether the key of an entry is the string [key] ([fl_value_equal]
    against a string value). *)
Definition key_is (key : string) (k : FlValue) : bool :=
  match k with FvString s => String.eqb s key | _ => false end.

Fixpoint lookup_entries (m : list (FlValue * FlValue)) (key : string)
  : option FlValue :=
  match m with
  | [] => None
  | (k, v) :: m' => if key_is key k then Some v else lookup_entries m' key
  end.

(** [fl_value_lookup_string]: [None] is the null pointer, also returned
    when the value is not a map. *)
Definition fl_value_lookup_string (self : FlValue) (key : string)
  : option FlValue :=
  match self with
  | FvMap m => lookup_entries m key
  | _ => None
  end.

(** [fl_value_get_string]: the null pointer when the value is no string. *)
Definition fl_value_get_string (self : FlValue) : option string :=
  match self with FvString s => Some s | _ => None end.

(** How a call ends: it returns; it builds a [std::string] from a null
    [const gchar*] (undefined behaviour); it uses a value whose last
    reference was dropped, or returns a list that holds such a value
    (undefined behaviour); or the cursor of a query does not complete
    within the fuel. *)
Inductive Run (A : Type) : Type :=
| Returns (a : A)
| NullString
| UseAfterFree
| Unfinished.
Arguments Returns {A} a.
Arguments NullString {A}.
Arguments UseAfterFree {A}.
Arguments Unfinished {A}.

Definition bind {A B : Type} (r : Run A) (k : A -> Run B) : Run B :=
  match r with
  | Returns a => k a
  | NullString => NullString
  | UseAfterFree => UseAfterFree
  | Unfinished => Unfinished
  end.

Notation "x <- c ;; k" := (bind c (fun x => k))
  (at level 61, c at next level, right associativity).

(** *** The store of reference-counted values

    An [FlValue*] is an address; the store holds, for each address handed
    out, the object with its reference count, or nothing once the last
    reference was dropped.  Addresses are not handed out twice, so that a
    pointer to a released object stays recognizable. *)
Definition FlRef : Type := nat.

Inductive FlObject : Type :=
| FlNullObject
| FlBoolObject (b : bool)
| FlIntObject (z : Z)
| FlFloatObject (d : double)
| FlStringObject (s : string)
| FlListObject (values : list FlRef)
| FlMapObject (keys values : list FlRef).

Record FlCell : Type := mkCell { ref_count : nat; object : FlObject }.

Definition FlStore : Type := list (option FlCell).

(** The live object at an address; [None] when it was released. *)
Definition fl_cell (h : FlStore) (p : FlRef) : option FlCell :=
  match nth_error h p with
  | Some (Some c) => Some c
  | _ => None
  end.

Fixpoint store_set (h : FlStore) (p : FlRef) (x : option FlCell) : FlStore :=
  match h, p with
  | [], _ => []
  | _ :: h', O => x :: h'
  | y :: h', S p' => y :: store_set h' p' x
  end.

Fixpoint list_set (l : list FlRef) (index : nat) (x : FlRef) : list FlRef :=
  match l, index with
  | [], _ => []
  | _ :: l', O => x :: l'
  | y :: l', S i => y :: list_set l' i x
  end.

(** [fl_value_new_null], [fl_value_new_int], ..., [fl_value_new_map]: a
    new object with one reference, which the caller owns. *)
Definition fl_value_new (o : FlObject) (h : FlStore) : FlRef * FlStore :=
  (List.length h, (h ++ [Some (mkCell 1 o)])%list).

(** [fl_value_ref] *)
Definition fl_value_ref (p : FlRef) (h : FlStore) : Run FlStore :=
  match fl_cell h p with
  | None => UseAfterFree
  | Some c =>
      Returns (store_set h p (Some (mkCell (S (ref_count c)) (object c))))
  end.

(** The values a list or a map holds a reference to: the keys, then the
    values. *)
Definition held (o : FlObject) : list FlRef :=
  match o with
  | FlListObject values => values
  | FlMapObject keys values => (keys ++ values)%list
  | _ => []
  end.

Fixpoint unref_each (unref : FlRef -> FlStore -> Run FlStore)
  (l : list FlRef) (h : FlStore) : Run FlStore :=
  match l with
  | [] => Returns h
  | p :: l' => h' <- unref p h ;; unref_each unref l' h'
  end.

(** [fl_value_unref]: one reference less; with the last one the object is
    released, and so is its reference to each value it holds.  [depth]
    bounds the nesting of the values; the size of the store is enough. *)
Fixpoint fl_value_unref (depth : nat) (p : FlRef) (h : FlStore)
  : Run FlStore :=
  match fl_cell h p with
  | None => UseAfterFree
  | Some c =>
      match ref_count c with
      | O => Returns h
      | S O =>
          let h' := store_set h p None in
          match held (object c), depth with
          | [], _ => Returns h'
          | _ :: _, O => Unfinished
          | l, S d => unref_each (fl_value_unref d) l h'
          end
      | S n => Returns (store_set h p (Some (mkCell n (object c))))
      end
  end.

(** A [g_autoptr(FlValue)] variable leaves its scope. *)
Definition g_autoptr_cleanup (p : FlRef) (h : FlStore) : Run FlStore :=
  fl_value_unref (List.length h) p h.

(** [fl_value_append_take]: the list takes over the caller's reference to
    [value]; the count of [value] does not change. *)
Definition fl_value_append_take (self value : FlRef) (h : FlStore)
  : Run FlStore :=
  match fl_cell h self with
  | None => UseAfterFree
  | Some c =>
      match object c with
      | FlListObject values =>
          Returns (store_set h self
                     (Some (mkCell (ref_count c)
                              (FlListObject (values ++ [value])))))
      | _ => Returns h
      end
  end.

(** [fl_value_lookup_index] for a string key: each key of the map is read
    and compared ([fl_value_equal]); a string equals a string of the same
    text only. *)
Fixpoint fl_value_lookup_index (h : FlStore) (keys : list FlRef)
  (text : string) (index : nat) : Run (option nat) :=
  match keys with
  | [] => Returns None
  | k :: keys' =>
      match fl_cell h k with
      | None => UseAfterFree
      | Some c =>
          match object c with
          | FlStringObject s =>
              if String.eqb s text then Returns (Some index)
              else fl_value_lookup_index h keys' text (S index)
          | _ => fl_value_lookup_index h keys' text (S index)
          end
      end
  end.

(** [fl_value_set_take] with a string as key, as [Query] has it: the map
    takes over the caller's references to [key] and [value], whose counts
    do not change; the entry of an equal key gives way to them, a new key
    is appended.  (Nothing is done when [self] is no map; keys other than
    strings are not met.) *)
Definition fl_value_set_take (self key value : FlRef) (h : FlStore)
  : Run FlStore :=
  match fl_cell h self, fl_cell h key with
  | Some c, Some kc =>
      match object c, object kc with
      | FlMapObject keys values, FlStringObject text =>
          found <- fl_value_lookup_index h keys text 0 ;;
          match found with
          | None =>
              Returns (store_set h self
                         (Some (mkCell (ref_count c)
                                  (FlMapObject (keys ++ [key])
                                     (values ++ [value])))))
          | Some index =>
              h1 <- fl_value_unref (List.length h) (nth index keys key) h ;;
              h2 <- fl_value_unref (List.length h1)
                      (nth index values value) h1 ;;
              Returns (store_set h2 self
                         (Some (mkCell (ref_count c)
                                  (FlMapObject (list_set keys index key)
                                     (list_set values index value)))))
          end
      | _, _ => Returns h
      end
  | _, _ => UseAfterFree
  end.

Fixpoint all_some {A : Type} (l : list (option A)) : option (list A) :=
  match l with
  | [] => Some []
  | None :: _ => None
  | Some a :: l' => option_map (cons a) (all_some l')
  end.

(** The value an address designates, as data; [None] when a released
    object is met on the way. *)
Fixpoint fl_value_read (depth : nat) (h : FlStore) (p : FlRef)
  : option FlValue :=
  match fl_cell h p with
  | None => None
  | Some c =>
      match object c, depth with
      | FlNullObject, _ => Some FvNull
      | FlBoolObject b, _ => Some (FvBool b)
      | FlIntObject z, _ => Some (FvInt z)
      | FlFloatObject d, _ => Some (FvFloat d)
      | FlStringObject s, _ => Some (FvString s)
      | FlListObject values, S d =>
          option_map FvList (all_some (map (fl_value_read d h) values))
      | FlMapObject keys values, S d =>
          match all_some (map (fl_value_read d h) keys),
                all_some (map (fl_value_read d h) values) with
          | Some ks, Some vs => Some (FvMap (combine ks vs))
          | _, _ => None
          end
      | _, O => None
      end
  end.

(** The elements of the list at an address, as data. *)
Definition fl_value_read_list (h : FlStore) (p : FlRef)
  : option (list FlValue) :=
  match fl_cell h p with
  | Some c =>
      match object c with
      | FlListObject values =>
          all_some (map (fl_value_read (List.length h) h) values)
      | _ => None
      end
  | None => None
  end.

Section DatabaseManager.
Context {E : Sqlite3}.

(** [class DatabaseManager]; [database_ = None] is the null handle. *)
Record DatabaseManager : Type := mkDatabaseManager {
  database_path_ : string;
  database_ : option sqlite3
}.

Definition set_database (m : DatabaseManager) (db : option sqlite3)
  : DatabaseManager :=
  {| database_path_ := database_path_ m; database_ := db |}.

Definition new_DatabaseManager (database_path : string) : DatabaseManager :=
  {| database_path_ := database_path; database_ := None |}.

(** [Initialize] *)
Definition Initialize (m : DatabaseManager) : bool * DatabaseManager :=
  let '(result, handle) := sqlite3_open (c_str (database_path_ m)) in
  if negb (result =? SQLITE_OK) then (false, set_database m handle)
  else
    (true,
     set_database m
       (option_map (fun db => sqlite3_exec db "PRAGMA foreign_keys = ON")
                   handle)).

(** [Close] *)
Definition Close (m : DatabaseManager) : DatabaseManager :=
  match database_ m with
  | Some _ => set_database m None
  | None => m
  end.

(** [GetPrefixedTableName] *)
Definition GetPrefixedTableName (table_name space : string) : string :=
  space ++ "_" ++ table_name.

(** The statement text [Insert] builds: the record takes no part in it. *)
Definition Insert_sql (table_name : string) (data : FlValue)
  (space : string) : string :=
  let prefixed_table := GetPrefixedTableName table_name space in
  "INSERT INTO " ++ prefixed_table ++ " DEFAULT VALUES".

(** [Insert]: the row id, or [-1]; nothing is bound. *)
Definition Insert (m : DatabaseManager) (table_name : string)
  (data : FlValue) (space : string) : Z * DatabaseManager :=
  match database_ m with
  | None => (-1, m)
  | Some db =>
      if negb (is_map data) then (-1, m)
      else
        let sql := Insert_sql table_name data space in
        let '(rc, db1, statement) := sqlite3_prepare_v2 db (c_str sql) in
        if negb (rc =? SQLITE_OK) then (-1, set_database m (Some db1))
        else
          let '(result, db2, statement) := sqlite3_step db1 statement in
          let db3 := sqlite3_finalize db2 statement in
          if negb (result =? SQLITE_DONE) then
            (-1, set_database m (Some db3))
          else (sqlite3_last_insert_rowid db3, set_database m (Some db3))
  end.

(** The [switch] on the column type in [Query]: the object of the new
    value. *)
Definition Query_value (statement : sqlite3_stmt) (i : Z) : FlObject :=
  let column_type := sqlite3_column_type statement i in
  if column_type =? SQLITE_INTEGER then
    FlIntObject (sqlite3_column_int64 statement i)
  else if column_type =? SQLITE_FLOAT then
    FlFloatObject (sqlite3_column_double statement i)
  else if column_type =? SQLITE_TEXT then
    FlStringObject (sqlite3_column_text statement i)
  else FlNullObject.

(** Body of the loop over the columns: [key] and [value] are
    [g_autoptr] variables, so each loses a reference when the body ends,
    [value] first, after [fl_value_set_take] has taken both over. *)
Definition Query_column (statement : sqlite3_stmt) (row : FlRef) (i : Z)
  (h : FlStore) : Run FlStore :=
  let column_name := sqlite3_column_name statement i in
  let '(key, h) := fl_value_new (FlStringObject column_name) h in
  let '(value, h) := fl_value_new (Query_value statement i) h in
  h <- fl_value_set_take row key value h ;;
  h <- g_autoptr_cleanup value h ;;
  g_autoptr_cleanup key h.

(** The loop over the columns. *)
Fixpoint Query_columns (statement : sqlite3_stmt) (row : FlRef)
  (columns : list Z) (h : FlStore) : Run FlStore :=
  match columns with
  | [] => Returns h
  | i :: columns' =>
      h <- Query_column statement row i h ;;
      Query_columns statement row columns' h
  end.

(** The [while] loop over the cursor, for at most [fuel] steps: [row] is
    a [g_autoptr] variable too and loses a reference when the body ends,
    after [fl_value_append_take] has taken it over. *)
Fixpoint Query_loop (fuel : nat) (db : sqlite3) (statement : sqlite3_stmt)
  (results : FlRef) (h : FlStore)
  : Run (sqlite3 * sqlite3_stmt * FlStore) :=
  match fuel with
  | O => Unfinished
  | S fuel' =>
      let '(rc, db', statement') := sqlite3_step db statement in
      if rc =? SQLITE_ROW then
        let '(row, h) := fl_value_new (FlMapObject [] []) h in
        let column_count := sqlite3_column_count statement' in
        h <- Query_columns statement' row (column_indices column_count) h ;;
        h <- fl_value_append_take results row h ;;
        h <- g_autoptr_cleanup row h ;;
        Query_loop fuel' db' statement' results h
      else Returns (db', statement', h)
  end.

(** [return fl_value_ref(results);] with the [g_autoptr] variable
    [results] leaving its scope: the list returned, read as data. *)
Definition Query_return (results : FlRef) (h : FlStore) (m : DatabaseManager)
  : Run (FlValue * DatabaseManager) :=
  h <- fl_value_ref results h ;;
  h <- g_autoptr_cleanup results h ;;
  match fl_value_read_list h results with
  | Some l => Returns (FvList l, m)
  | None => UseAfterFree
  end.

(** [Query].  The store starts with the values [Query] creates: it
    touches no other. *)
Definition Query (fuel : nat) (m : DatabaseManager) (sql : string)
  : Run (FlValue * DatabaseManager) :=
  let '(results, h) := fl_value_new (FlListObject []) [] in
  match database_ m with
  | None => Query_return results h m
  | Some db =>
      let '(rc, db1, statement) := sqlite3_prepare_v2 db (c_str sql) in
      if negb (rc =? SQLITE_OK) then
        Query_return results h (set_database m (Some db1))
      else
        r <- Query_loop fuel db1 statement results h ;;
        let '(db2, statement, h) := r in
        Query_return results h
          (set_database m (Some (sqlite3_finalize db2 statement)))
  end.

(** [Update]: the arguments are not used. *)
Definition Update (m : DatabaseManager) (sql : string) (arguments : FlValue)
  : Z * DatabaseManager :=
  match database_ m with
  | None => (0, m)
  | Some db =>
      let '(rc, db1, statement) := sqlite3_prepare_v2 db (c_str sql) in
      if negb (rc =? SQLITE_OK) then (0, set_database m (Some db1))
      else
        let '(_, db2, statement) := sqlite3_step db1 statement in
        let changes := sqlite3_changes db2 in
        (changes, set_database m (Some (sqlite3_finalize db2 statement)))
  end.

(** [Delete] *)
Definition Delete (m : DatabaseManager) (sql : string) (arguments : FlValue)
  : Z * DatabaseManager :=
  Update m sql arguments.

End DatabaseManager.

(** [FlMethodResponse] *)
Inductive FlMethodResponse : Type :=
| Success (result : option FlValue)
| Error (code message : string)
| NotImplemented.

Section Plugin.
Context {E : Sqlite3}.

(** [struct _LocalStorageCacheLinuxPlugin] *)
Record LocalStorageCacheLinuxPlugin : Type := mkPlugin {
  database_manager : option DatabaseManager
}.

(** The plugin after [local_storage_cache_linux_plugin_init]. *)
Definition new_Plugin : LocalStorageCacheLinuxPlugin :=
  {| database_manager := None |}.

(** [handle_method_call] *)
Definition handle_method_call (fuel : nat)
  (self : LocalStorageCacheLinuxPlugin) (method : string) (args : FlValue)
  : Run (FlMethodResponse * LocalStorageCacheLinuxPlugin) :=
  if String.eqb method "initialize" then
    match fl_value_lookup_string args "databasePath" with
    | None =>
        Returns (Error "INVALID_ARGS" "databasePath is required", self)
    | Some database_path_value =>
    match fl_value_get_string database_path_value with
    | None => NullString
    | Some database_path =>
        let '(ok, m) :=
          Initialize (new_DatabaseManager (c_str database_path)) in
        let self := {| database_manager := Some m |} in
        if ok then Returns (Success None, self)
        else
          Returns (Error "INIT_ERROR" "Failed to initialize database", self)
    end end
  else if String.eqb method "close" then
    match database_manager self with
    | Some m =>
        let _ := Close m in
        Returns (Success None, {| database_manager := None |})
    | None => Returns (Success None, self)
    end
  else if String.eqb method "insert" then
    match database_manager self with
    | None =>
        Returns (Error "NOT_INITIALIZED" "Database not initialized", self)
    | Some m =>
    let table_name_value := fl_value_lookup_string args "tableName" in
    let data_value := fl_value_lookup_string args "data" in
    let space_value := fl_value_lookup_string args "space" in
    match table_name_value, data_value with
    | Some table_name_value, Some data_value =>
        let table_name := fl_value_get_string table_name_value in
        let space :=
          match space_value with
          | Some space_value => fl_value_get_string space_value
          | None => Some "default"
          end in
        match table_name, space with
        | Some table_name, Some space =>
            let '(id, m) :=
              Insert m (c_str table_name) data_value (c_str space) in
            let self := {| database_manager := Some m |} in
            if id >=? 0 then Returns (Success (Some (FvInt id)), self)
            else Returns (Error "INSERT_ERROR" "Failed to insert data", self)
        | _, _ => NullString
        end
    | _, _ =>
        Returns (Error "INVALID_ARGS" "tableName and data are required", self)
    end end
  else if String.eqb method "query" then
    match database_manager self with
    | None =>
        Returns (Error "NOT_INITIALIZED" "Database not initialized", self)
    | Some m =>
    match fl_value_lookup_string args "sql" with
    | None => Returns (Error "INVALID_ARGS" "sql is required", self)
    | Some sql_value =>
    match fl_value_get_string sql_value with
    | None => NullString
    | Some sql =>
        r <- Query fuel m (c_str sql) ;;
        let '(results, m) := r in
        Returns (Success (Some results), {| database_manager := Some m |})
    end end end
  else if String.eqb method "isBiometricAvailable" then
    Returns (Success (Some (FvBool false)), self)
  else Returns (NotImplemented, self).

End Plugin.
End Linux.

(** ** A stand-in engine

    An executable instance of [Sqlite3], for running the bridges on
    concrete inputs.  It does not parse SQL: a connection holds one result
    set, which every statement that starts with [SELECT] yields row by
    row; a statement that starts with [INSERT], [UPDATE] or [DELETE]
    completes at its first step; any other text fails to prepare. *)
Module Toy.

Inductive cell : Type :=
| CInt (z : Z)
| CFloat (d : double)
| CText (s : string)
| CBlob
| CNull.

Definition row : Type := list (string * cell).

Inductive binding : Type :=
| BText (s : string)
| BInt (z : Z)
| BInt64 (z : Z)
| BDouble (d : double)
| BNull.

(** A connection also keeps a journal: the text and the bindings of every
    mutation it has executed, one entry for each step. *)
Record db : Type := mkDb {
  table : list row;
  last_rowid : Z;
  changes : Z;
  journal : list (string * list (Z * binding))
}.

Record stmt : Type := mkStmt {
  text : string;
  bound : list (Z * binding);
  pending : list row;
  current : row
}.

Definition is_select (sql : string) : bool := String.prefix "SELECT" sql.
Definition is_mutation (sql : string) : bool :=
  String.prefix "INSERT" sql || String.prefix "UPDATE" sql
  || String.prefix "DELETE" sql.

Definition open (path : string) : Z * option db :=
  if String.eqb path "/" then (14, None)
  else
    (SQLITE_OK,
     Some {| table := []; last_rowid := 0; changes := 0; journal := [] |}).

Definition prepare (d : db) (sql : string) : Z * db * stmt :=
  let st pend :=
    {| text := sql; bound := []; pending := pend; current := [] |} in
  if is_select sql then (SQLITE_OK, d, st (table d))
  else if is_mutation sql then (SQLITE_OK, d, st [])
  else (SQLITE_ERROR, d, st []).

Definition bind (st : stmt) (index : Z) (b : binding) : stmt :=
  {| text := text st; bound := (bound st ++ [(index, b)])%list;
     pending := pending st; current := current st |}.

Definition step (d : db) (st : stmt) : Z * db * stmt :=
  if is_select (text st) then
    match pending st with
    | r :: rest =>
        (SQLITE_ROW, d,
         {| text := text st; bound := bound st; pending := rest;
            current := r |})
    | [] => (SQLITE_DONE, d, st)
    end
  else if String.prefix "INSERT" (text st) then
    (SQLITE_DONE,
     {| table := table d; last_rowid := last_rowid d + 1; changes := 1;
        journal := (journal d ++ [(text st, bound st)])%list |},
     st)
  else if is_mutation (text st) then
    (SQLITE_DONE,
     {| table := table d; last_rowid := last_rowid d;
        changes := Z.of_nat (List.length (table d));
        journal := (journal d ++ [(text st, bound st)])%list |},
     st)
  else (SQLITE_MISUSE, d, st).

Definition column (st : stmt) (i : Z) : option (string * cell) :=
  if i <? 0 then None else nth_error (current st) (Z.to_nat i).

Definition column_name (st : stmt) (i : Z) : string :=
  match column st i with Some (n, _) => n | None => "" end.

Definition column_type (st : stmt) (i : Z) : Z :=
  match column st i with
  | Some (_, CInt _) => SQLITE_INTEGER
  | Some (_, CFloat _) => SQLITE_FLOAT
  | Some (_, CText _) => SQLITE_TEXT
  | Some (_, CBlob) => SQLITE_BLOB
  | _ => SQLITE_NULL
  end.

Definition column_int64 (st : stmt) (i : Z) : Z :=
  match column st i with Some (_, CInt z) => wrap64 z | _ => 0 end.

Definition column_double (st : stmt) (i : Z) : double :=
  match column st i with Some (_, CFloat d) => d | _ => Double 0 end.

Definition column_text (st : stmt) (i : Z) : string :=
  match column st i with Some (_, CText s) => c_str s | _ => "" end.

Definition engine : Sqlite3 := {|
  sqlite3 := db;
  sqlite3_stmt := stmt;
  sqlite3_open := open;
  sqlite3_exec := fun d _ => d;
  sqlite3_prepare_v2 := prepare;
  sqlite3_bind_text := fun st i s => bind st i (BText s);
  sqlite3_bind_int := fun st i z => bind st i (BInt z);
  sqlite3_bind_int64 := fun st i z => bind st i (BInt64 z);
  sqlite3_bind_double := fun st i d => bind st i (BDouble d);
  sqlite3_bind_null := fun st i => bind st i BNull;
  sqlite3_step := step;
  sqlite3_finalize := fun d _ => d;
  sqlite3_last_insert_rowid := last_rowid;
  sqlite3_changes := changes;
  sqlite3_column_count := fun st => Z.of_nat (List.length (current st));
  sqlite3_column_name := column_name;
  sqlite3_column_type := column_type;
  sqlite3_column_int64 := column_int64;
  sqlite3_column_double := column_double;
  sqlite3_column_text := column_text;
  sqlite3_column_int64_range :=
    ltac:(intros st i; unfold column_int64;
          destruct (column st i) as [[n [z| | | |]]|];
          unfold is_int64, wrap64, int64_min, int64_max;
          try (pose proof (Z.mod_pos_bound (z + 2 ^ 63) (2 ^ 64));
               lia);
          lia)
|}.

(** A connection whose result set is the row [{name: "a", qty: 3}]. *)
Definition items : db :=
  {| table := [[("name", CText "a"); ("qty", CInt 3)]];
     last_rowid := 0; changes := 0; journal := [] |}.

(** A connection with no rows. *)
Definition empty : db :=
  {| table := []; last_rowid := 0; changes := 0; journal := [] |}.

(** The journal of the connection a manager holds. *)
Definition journal_of (h : option db) : list (string * list (Z * binding)) :=
  match h with Some d => journal d | None => [] end.

(** The record [{name: "a", qty: 3}] as each platform receives it. *)
Definition windows_record : Windows.EncodableMap :=
  [(Windows.EvString "name", Windows.EvString "a");
   (Windows.EvString "qty", Windows.EvInt32 3)].
Definition linux_record : Linux.FlValue :=
  Linux.FvMap [(Linux.FvString "name", Linux.FvString "a");
               (Linux.FvString "qty", Linux.FvInt 3)].

(** Arguments of an [insert] call for that record, with or without a
    space. *)
Definition windows_insert_args (table : string) (space : option string)
  : list (Windows.EncodableValue * Windows.EncodableValue) :=
  (Windows.EvString "data", Windows.EvMap windows_record) ::
  match space with
  | Some s => [(Windows.EvString "space", Windows.EvString s)]
  | None => []
  end ++ [(Windows.EvString "tableName", Windows.EvString table)].
Definition linux_insert_args (table : string) (space : option string)
  : list (Linux.FlValue * Linux.FlValue) :=
  (Linux.FvString "tableName", Linux.FvString table) ::
  (Linux.FvString "data", linux_record) ::
  match space with
  | Some s => [(Linux.FvString "space", Linux.FvString s)]
  | None => []
  end.

(** Managers and plugins that hold the connection [d]. *)
Definition windows_manager (d : db) : Windows.DatabaseManager (E := engine) :=
  Windows.mkDatabaseManager (E := engine) "app.db" (Some d).
Definition linux_manager (d : db) : Linux.DatabaseManager (E := engine) :=
  Linux.mkDatabaseManager (E := engine) "app.db" (Some d).
Definition windows_plugin (d : db)
  : Windows.LocalStorageCacheWindowsPlugin (E := engine) :=
  Windows.mkPlugin (E := engine) (Some (windows_manager d)).
Definition linux_plugin (d : db)
  : Linux.LocalStorageCacheLinuxPlugin (E := engine) :=
  Linux.mkPlugin (E := engine) (Some (linux_manager d)).

End Toy.

(** ** The specification's wording *)

(** A Record of the specification: field names with their values, in
    iteration order; as the [EncodableMap] the Windows bridge receives. *)
Definition SpecRecord : Type := list (string * Windows.EncodableValue).

Definition to_EncodableMap (R : SpecRecord) : Windows.EncodableMap :=
  map (fun f => (Windows.EvString (fst f), snd f)) R.

(** BuildInsert in the specification's words: one column name and one
    placeholder for each field, the statement text around them, and the
    values as the parameter list. *)
Definition BuildInsert_columns (R : SpecRecord) : list string := map fst R.
Definition BuildInsert_placeholders (R : SpecRecord) : list string :=
  map (fun _ => "?") R.
Definition BuildInsert_parameters (R : SpecRecord)
  : list Windows.EncodableValue := map snd R.
Definition BuildInsert_text (table space : string) (R : SpecRecord) : string :=
  "INSERT INTO " ++ space ++ "_" ++ table ++
  " (" ++ String.concat ", " (BuildInsert_columns R) ++
  ") VALUES (" ++ String.concat ", " (BuildInsert_placeholders R) ++ ")".

(** The parameters bound in order at the positions [1, 2, ...]. *)
Definition bind_parameters {E : Sqlite3} (statement : sqlite3_stmt)
  (parameters : list Windows.EncodableValue) : sqlite3_stmt :=
  fold_left
    (fun st p => Windows.Insert_bind_value st (Z.of_nat (fst p) + 1) (snd p))
    (combine (seq 0 (List.length parameters)) parameters)
    statement.

(** The typed value of a column, by its runtime kind. *)
Definition Windows_projected {E : Sqlite3} (st : sqlite3_stmt) (i : Z)
  (v : Windows.EncodableValue) : Prop :=
  let kind := sqlite3_column_type st i in
  (kind = SQLITE_INTEGER ->
     v = Windows.EvInt64 (sqlite3_column_int64 st i) /\
     is_int64 (sqlite3_column_int64 st i)) /\
  (kind = SQLITE_FLOAT -> v = Windows.EvDouble (sqlite3_column_double st i)) /\
  (kind = SQLITE_TEXT -> v = Windows.EvString (sqlite3_column_text st i)) /\
  (kind <> SQLITE_INTEGER -> kind <> SQLITE_FLOAT -> kind <> SQLITE_TEXT ->
     v = Windows.EvNull).

(** No later column of the row carries the name of column [i]. *)
Definition last_of_its_name {E : Sqlite3} (st : sqlite3_stmt) (i : Z) : Prop :=
  forall j, i < j < sqlite3_column_count st ->
    sqlite3_column_name st j <> sqlite3_column_name st i.

(** The handle is Closed: the plugin is as constructed, or a [close] has
    returned, and no [initialize] has been handled since. *)
Inductive Windows_Closed {E : Sqlite3}
  : Windows.LocalStorageCacheWindowsPlugin -> Prop :=
| WClosed_new : Windows_Closed Windows.new_Plugin
| WClosed_close fuel self args r self' :
    Windows.HandleMethodCall fuel self "close" args = Some (r, self') ->
    Windows_Closed self'
| WClosed_other fuel self method args r self' :
    Windows_Closed self ->
    method <> "initialize" ->
    Windows.HandleMethodCall fuel self method args = Some (r, self') ->
    Windows_Closed self'.

Inductive Linux_Closed {E : Sqlite3}
  : Linux.LocalStorageCacheLinuxPlugin -> Prop :=
| LClosed_new : Linux_Closed Linux.new_Plugin
| LClosed_close fuel self args r self' :
    Linux.handle_method_call fuel self "close" args = Linux.Returns (r, self') ->
    Linux_Closed self'
| LClosed_other fuel self method args r self' :
    Linux_Closed self ->
    method <> "initialize" ->
    Linux.handle_method_call fuel self method args = Linux.Returns (r, self') ->
    Linux_Closed self'.

(** The failure [InvalidArgument], as each handler reports it. *)
Definition Windows_is_InvalidArgument (r : Windows.MethodResult) : bool :=
  match r with
  | Windows.Error code _ => String.eqb code "INVALID_ARGS"
  | _ => false
  end.

Definition Linux_is_InvalidArgument (r : Linux.FlMethodResponse) : bool :=
  match r with
  | Linux.Error code _ => String.eqb code "INVALID_ARGS"
  | _ => false
  end.

(** The reply of the [insert] call to the result [r] of [Insert]: the row
    id when it is not negative, INSERT_ERROR otherwise. *)
Definition Windows_insert_reply {E : Sqlite3}
  (r : Z * Windows.DatabaseManager)
  : option (Windows.MethodResult * Windows.LocalStorageCacheWindowsPlugin) :=
  Some (if fst r >=? 0 then Windows.Success (Some (Windows.EvInt64 (fst r)))
        else Windows.Error "INSERT_ERROR" "Failed to insert data",
        Windows.mkPlugin (Some (snd r))).

Definition Linux_insert_reply {E : Sqlite3} (r : Z * Linux.DatabaseManager)
  : Linux.Run (Linux.FlMethodResponse * Linux.LocalStorageCacheLinuxPlugin) :=
  Linux.Returns
    (if fst r >=? 0 then Linux.Success (Some (Linux.FvInt (fst r)))
     else Linux.Error "INSERT_ERROR" "Failed to insert data",
     Linux.mkPlugin (Some (snd r))).

(** The space a Linux [insert] call uses: the string under [space], or
    ["default"] when there is none; [None] when the value is no string. *)
Definition Linux_space_of (la : list (Linux.FlValue * Linux.FlValue))
  : option string :=
  match Linux.lookup_entries la "space" with
  | Some v => Linux.fl_value_get_string v
  | None => Some "default"
  end.

(** What a key of the record leaves in the column list and in the list of
    placeholders of the Windows [Insert]: a string its text and a
    placeholder, any other key nothing (the separator is written all the
    same). *)
Definition key_column (k : Windows.EncodableValue) : string :=
  match Windows.get_if_string k with Some key => key | None => "" end.
Definition key_placeholder (k : Windows.EncodableValue) : string :=
  match Windows.get_if_string k with Some _ => "?" | None => "" end.

(** Whether a string holds an underscore. *)
Fixpoint has_underscore (s : string) : bool :=
  match s with
  | EmptyString => false
  | String c s' => Ascii.eqb c "_"%char || has_underscore s'
  end.

(** Whether a string holds a NUL character. *)
Fixpoint has_NUL (s : string) : bool :=
  match s with
  | EmptyString => false
  | String c s' => Ascii.eqb c zero || has_NUL s'
  end.

(** The space of an [insert] call: the string the call carries, or
    ["default"] when it carries none. *)
Definition space_str (space : option string) : string :=
  match space with Some s => s | None => "default" end.

(** The method names each handler tests for. *)
Definition Windows_methods : list string :=
  ["initialize"; "close"; "insert"; "query"; "saveSecureKey";
   "isBiometricAvailable"].
Definition Linux_methods : list string :=
  ["initialize"; "close"; "insert"; "query"; "isBiometricAvailable"].

(** The arguments of a Windows call carry the string [v] under [name]. *)
Definition Windows_string_argument (args : Windows.EncodableValue)
  (name : string) : option string :=
  match Windows.get_if_map args with
  | Some a =>
      match Windows.EncodableMap_find a name with
      | Some v => Windows.get_if_string v
      | None => None
      end
  | None => None
  end.

(** The arguments of a Windows [insert] call are well formed: a map with a
    string under [tableName] and a map under [data]. *)
Definition Windows_insert_arguments (args : Windows.EncodableValue)
  : option (string * Windows.EncodableMap) :=
  match Windows.get_if_map args with
  | Some a =>
      match Windows.EncodableMap_find a "tableName",
            Windows.EncodableMap_find a "data" with
      | Some (Windows.EvString t), Some (Windows.EvMap d) => Some (t, d)
      | _, _ => None
      end
  | None => None
  end.

(** ** Update and Delete *)
Section Mutation.
Context {E : Sqlite3}.

(** C9: on both platforms [Delete] returns what [Update] returns and leaves
    the manager, and with it the connection, as [Update] leaves it, for
    every statement text and argument list. *)
Theorem Delete_is_Update :
  (forall (m : Windows.DatabaseManager) sql arguments,
      Windows.Delete m sql arguments = Windows.Update m sql arguments) /\
  (forall (m : Linux.DatabaseManager) sql arguments,
      Linux.Delete m sql arguments = Linux.Update m sql arguments).
Proof. split; intros; reflexivity. Qed.

Lemma Windows_Update_ignores_arguments (m : Windows.DatabaseManager) sql a1 a2 :
  Windows.Update m sql a1 = Windows.Update m sql a2.
Proof. unfold Windows.Update. destruct (Windows.database_ m); reflexivity. Qed.

Lemma Linux_Update_ignores_arguments (m : Linux.DatabaseManager) sql a1 a2 :
  Linux.Update m sql a1 = Linux.Update m sql a2.
Proof. unfold Linux.Update. destruct (Linux.database_ m); reflexivity. Qed.

(** C10: [Update] and [Delete] never bind their arguments: for one
    statement text and one manager state, any two argument lists give the
    same affected-row count and the same resulting state, on both
    platforms. *)
Theorem Update_Delete_independent_of_arguments :
  (forall (m : Windows.DatabaseManager) sql a1 a2,
      Windows.Update m sql a1 = Windows.Update m sql a2 /\
      Windows.Delete m sql a1 = Windows.Delete m sql a2) /\
  (forall (m : Linux.DatabaseManager) sql a1 a2,
      Linux.Update m sql a1 = Linux.Update m sql a2 /\
      Linux.Delete m sql a1 = Linux.Delete m sql a2).
Proof.
  split; intros m sql a1 a2; split;
    unfold Windows.Delete, Linux.Delete;
    auto using Windows_Update_ignores_arguments,
               Linux_Update_ignores_arguments.
Qed.

(** C8: with an open handle, [Update] prepares the text once; when the
    preparation fails it returns zero; otherwise it steps the statement
    once and returns the engine's change count as it stands after that
    step, and the connection left is the one after that single step,
    finalized.  The result is a number: no error text reaches the caller. *)
Theorem Update_single_step db sql rc db1 st path :
  sqlite3_prepare_v2 db (c_str sql) = (rc, db1, st) ->
  let wm := Windows.mkDatabaseManager path (Some db) in
  let lm := Linux.mkDatabaseManager path (Some db) in
  (rc <> SQLITE_OK ->
     (forall a, Windows.Update wm sql a
                = (0, Windows.mkDatabaseManager path (Some db1))) /\
     (forall a, Linux.Update lm sql a
                = (0, Linux.mkDatabaseManager path (Some db1)))) /\
  (rc = SQLITE_OK ->
     forall rc' db2 st2, sqlite3_step db1 st = (rc', db2, st2) ->
     (forall a, Windows.Update wm sql a
                = (sqlite3_changes db2,
                   Windows.mkDatabaseManager path
                     (Some (sqlite3_finalize db2 st2)))) /\
     (forall a, Linux.Update lm sql a
                = (sqlite3_changes db2,
                   Linux.mkDatabaseManager path
                     (Some (sqlite3_finalize db2 st2))))).
Proof.
  intros Hprep wm lm. split.
  - intros Hrc. apply Z.eqb_neq in Hrc.
    split; intros a; cbn; rewrite Hprep, Hrc; reflexivity.
  - intros -> rc' db2 st2 Hstep.
    split; intros a; cbn; rewrite Hprep; cbn; rewrite Hstep; reflexivity.
Qed.

End Mutation.

(** An instance of C8: a [DELETE] on the stand-in engine is journalled
    once and reports the count of that step; a text that does not prepare
    gives zero. *)
Lemma Update_single_step_witness :
  let after :=
    Toy.mkDb (Toy.table Toy.items) 0 1 [("DELETE FROM t", [])] in
  ((forall a, Windows.Update (Toy.windows_manager Toy.items) "DELETE FROM t" a
              = (1, Toy.windows_manager after)) /\
   (forall a, Linux.Update (Toy.linux_manager Toy.items) "DELETE FROM t" a
              = (1, Toy.linux_manager after))) /\
  (forall a, Windows.Update (Toy.windows_manager Toy.items) "bogus" a
             = (0, Toy.windows_manager Toy.items)).
Proof.
  split.
  - exact (proj2 (Update_single_step (E := Toy.engine) Toy.items
                    "DELETE FROM t" SQLITE_OK Toy.items _ "app.db" eq_refl)
                 eq_refl _ _ _ eq_refl).
  - refine (proj1 (proj1 (Update_single_step (E := Toy.engine) Toy.items
                     "bogus" SQLITE_ERROR Toy.items _ "app.db" eq_refl) _)).
    discriminate.
Defined.

(** ** The handle's life cycle *)
Section Lifecycle.
Context {E : Sqlite3}.

(** Destructs the tests and matches of a hypothesis until it is a plain
    equation. *)
Ltac split_handler H :=
  repeat match type of H with
         | context [if ?b then _ else _] => destruct b eqn:?
         | context [match ?x with _ => _ end] => destruct x eqn:?
         end.

Lemma Windows_Close_closed (m : Windows.DatabaseManager) :
  Windows.database_ (Windows.Close m) = None.
Proof.
  unfold Windows.Close. destruct (Windows.database_ m) eqn:Hd; auto.
Qed.

Lemma Linux_Close_closed (m : Linux.DatabaseManager) :
  Linux.database_ (Linux.Close m) = None.
Proof.
  unfold Linux.Close. destruct (Linux.database_ m) eqn:Hd; auto.
Qed.

Lemma Windows_Closed_no_manager self :
  Windows_Closed self -> Windows.database_manager_ self = None.
Proof.
  induction 1 as [|fuel self args r self' Hcall
                  |fuel self method args r self' _ IH Hne Hcall].
  - reflexivity.
  - cbn in Hcall.
    destruct (Windows.database_manager_ self) eqn:Hm;
      inversion Hcall; subst; auto.
  - unfold Windows.HandleMethodCall in Hcall. rewrite IH in Hcall.
    destruct (String.eqb method "initialize") eqn:Hi.
    + apply String.eqb_eq in Hi. contradiction.
    + split_handler Hcall; inversion Hcall; subst; assumption.
Qed.

Lemma Linux_Closed_no_manager self :
  Linux_Closed self -> Linux.database_manager self = None.
Proof.
  induction 1 as [|fuel self args r self' Hcall
                  |fuel self method args r self' _ IH Hne Hcall].
  - reflexivity.
  - cbn in Hcall.
    destruct (Linux.database_manager self) eqn:Hm;
      inversion Hcall; subst; auto.
  - unfold Linux.handle_method_call in Hcall. rewrite IH in Hcall.
    destruct (String.eqb method "initialize") eqn:Hi.
    + apply String.eqb_eq in Hi. contradiction.
    + split_handler Hcall; inversion Hcall; subst; assumption.
Qed.

(** The guards of the manager itself: on a null handle [Insert], [Query]
    and [Update] return [-1], the empty list and [0] and call nothing. *)
Lemma null_handle_guard :
  (forall (m : Windows.DatabaseManager) fuel t d s sql a,
      Windows.database_ m = None ->
      Windows.Insert m t d s = (-1, m) /\
      Windows.Query fuel m sql = Some ([], m) /\
      Windows.Update m sql a = (0, m)) /\
  (forall (m : Linux.DatabaseManager) fuel t d s sql a,
      Linux.database_ m = None ->
      Linux.Insert m t d s = (-1, m) /\
      Linux.Query fuel m sql = Linux.Returns (Linux.FvList [], m) /\
      Linux.Update m sql a = (0, m)).
Proof.
  split; intros m fuel t d s sql a Hd;
    unfold Windows.Insert, Windows.Query, Windows.Update,
           Linux.Insert, Linux.Query, Linux.Update;
    rewrite Hd; auto.
Qed.

(** C7: [close] succeeds in every state and leaves the handle Closed; a
    second [close] right after it succeeds again and changes nothing; so
    does a [close] on the plugin as constructed.  [Close] of the manager
    nulls the handle and is idempotent.  On both platforms. *)
Theorem close_idempotent :
  (forall fuel (self : Windows.LocalStorageCacheWindowsPlugin) a1 a2,
      exists self1,
        Windows.HandleMethodCall fuel self "close" a1
        = Some (Windows.Success None, self1) /\
        Windows_Closed self1 /\
        Windows.database_manager_ self1 = None /\
        Windows.HandleMethodCall fuel self1 "close" a2
        = Some (Windows.Success None, self1)) /\
  (forall fuel a,
      Windows.HandleMethodCall fuel Windows.new_Plugin "close" a
      = Some (Windows.Success None, Windows.new_Plugin)) /\
  (forall fuel (self : Linux.LocalStorageCacheLinuxPlugin) a1 a2,
      exists self1,
        Linux.handle_method_call fuel self "close" a1
        = Linux.Returns (Linux.Success None, self1) /\
        Linux_Closed self1 /\
        Linux.database_manager self1 = None /\
        Linux.handle_method_call fuel self1 "close" a2
        = Linux.Returns (Linux.Success None, self1)) /\
  (forall fuel a,
      Linux.handle_method_call fuel Linux.new_Plugin "close" a
      = Linux.Returns (Linux.Success None, Linux.new_Plugin)) /\
  (forall m : Windows.DatabaseManager,
      Windows.database_ (Windows.Close m) = None /\
      Windows.Close (Windows.Close m) = Windows.Close m) /\
  (forall m : Linux.DatabaseManager,
      Linux.database_ (Linux.Close m) = None /\
      Linux.Close (Linux.Close m) = Linux.Close m).
Proof.
  repeat apply conj.
  - intros fuel [[m|]] a1 a2; eexists; cbn;
      (split; [reflexivity|]); (split; [|split; reflexivity]).
    + eapply (WClosed_close fuel (Windows.mkPlugin (Some m)) a1). reflexivity.
    + apply WClosed_new.
  - reflexivity.
  - intros fuel [[m|]] a1 a2; eexists; cbn;
      (split; [reflexivity|]); (split; [|split; reflexivity]).
    + eapply (LClosed_close fuel (Linux.mkPlugin (Some m)) a1). reflexivity.
    + apply LClosed_new.
  - reflexivity.
  - intros m. split; [apply Windows_Close_closed|].
    unfold Windows.Close at 1. now rewrite Windows_Close_closed.
  - intros m. split; [apply Linux_Close_closed|].
    unfold Linux.Close at 1. now rewrite Linux_Close_closed.
Qed.

(** C4: while the handle is Closed (the plugin as constructed, or after a
    [close], with no [initialize] since) [insert] and [query] answer the
    error NOT_INITIALIZED, whatever their arguments, and leave the plugin
    as it was; the manager is not reached.  On both platforms. *)
Theorem closed_handle_NotInitialized fuel
  (ws : Windows.LocalStorageCacheWindowsPlugin) wargs
  (ls : Linux.LocalStorageCacheLinuxPlugin) largs :
  Windows_Closed ws ->
  Linux_Closed ls ->
  (Windows.HandleMethodCall fuel ws "insert" wargs
   = Some (Windows.Error "NOT_INITIALIZED" "Database not initialized", ws) /\
   Windows.HandleMethodCall fuel ws "query" wargs
   = Some (Windows.Error "NOT_INITIALIZED" "Database not initialized", ws)) /\
  (Linux.handle_method_call fuel ls "insert" largs
   = Linux.Returns
       (Linux.Error "NOT_INITIALIZED" "Database not initialized", ls) /\
   Linux.handle_method_call fuel ls "query" largs
   = Linux.Returns
       (Linux.Error "NOT_INITIALIZED" "Database not initialized", ls)).
Proof.
  intros Hw Hl.
  apply Windows_Closed_no_manager in Hw.
  apply Linux_Closed_no_manager in Hl.
  unfold Windows.HandleMethodCall, Linux.handle_method_call.
  rewrite Hw, Hl. cbn. auto.
Qed.

End Lifecycle.

(** An instance of C4: a plugin that was opened on the stand-in engine and
    then closed rejects [insert] and [query]. *)
Lemma closed_handle_NotInitialized_witness :
  let ws := Windows.mkPlugin (E := Toy.engine) None in
  let ls := Linux.mkPlugin (E := Toy.engine) None in
  let wargs :=
    Windows.EvMap [(Windows.EvString "sql", Windows.EvString "SELECT 1")] in
  let largs :=
    Linux.FvMap [(Linux.FvString "sql", Linux.FvString "SELECT 1")] in
  (Windows_Closed ws /\ Linux_Closed ls) /\
  (Windows.HandleMethodCall 5 ws "insert" wargs
   = Some (Windows.Error "NOT_INITIALIZED" "Database not initialized", ws) /\
   Windows.HandleMethodCall 5 ws "query" wargs
   = Some (Windows.Error "NOT_INITIALIZED" "Database not initialized", ws)) /\
  (Linux.handle_method_call 5 ls "insert" largs
   = Linux.Returns
       (Linux.Error "NOT_INITIALIZED" "Database not initialized", ls) /\
   Linux.handle_method_call 5 ls "query" largs
   = Linux.Returns
       (Linux.Error "NOT_INITIALIZED" "Database not initialized", ls)).
Proof.
  intros ws ls wargs largs.
  assert (Hw : Windows_Closed ws).
  { exact (WClosed_close 5 (Toy.windows_plugin Toy.items) Windows.EvNull
             (Windows.Success None) ws eq_refl). }
  assert (Hl : Linux_Closed ls).
  { exact (LClosed_close 5 (Toy.linux_plugin Toy.items) Linux.FvNull
             (Linux.Success None) ls eq_refl). }
  split; [split; assumption|].
  exact (closed_handle_NotInitialized 5 ws wargs ls largs Hw Hl).
Defined.

(** ** Rows as maps: what a lookup finds after the loop over the columns *)
Section RowLookup.
Variables (V M : Type).
Variable find : M -> string -> option V.
Variable assign : M -> string -> V -> M.
Hypothesis find_same : forall m k v, find (assign m k v) k = Some v.
Hypothesis find_other :
  forall m k k' v, k' <> k -> find (assign m k' v) k = find m k.
Variables (name : Z -> string) (value : Z -> V).

Let column (row : M) (j : Z) : M := assign row (name j) (value j).

Lemma fold_keeps_lookup (i : Z) (l : list Z) (row : M) :
  (forall j, In j l -> name j <> name i) ->
  find (fold_left column l row) (name i) = find row (name i).
Proof.
  revert row. induction l as [|j l IH]; intros row Hl; cbn; [reflexivity|].
  rewrite IH by (intros; apply Hl; now right).
  apply find_other, Hl. now left.
Qed.

Lemma fold_lookup (i : Z) (l1 l2 : list Z) (row : M) :
  (forall j, In j l2 -> name j <> name i) ->
  find (fold_left column (l1 ++ i :: l2) row) (name i) = Some (value i).
Proof.
  intros Hl2. rewrite fold_left_app. cbn.
  rewrite fold_keeps_lookup by assumption. apply find_same.
Qed.

End RowLookup.

Lemma column_indices_split (n i : Z) :
  0 <= i < n ->
  exists l1 l2,
    column_indices n = (l1 ++ i :: l2)%list /\
    forall j, In j l2 -> i < j < n.
Proof.
  intros Hi. unfold column_indices.
  replace (Z.to_nat n)
    with (Z.to_nat i + S (Z.to_nat n - S (Z.to_nat i)))%nat by lia.
  rewrite seq_app, map_app. cbn [seq map Nat.add].
  rewrite Z2Nat.id by lia.
  eexists _, _. split; [reflexivity|].
  intros j Hj. apply in_map_iff in Hj. destruct Hj as [k [<- Hk]].
  apply in_seq in Hk. lia.
Qed.

Lemma c_str_idempotent (s : string) : c_str (c_str s) = c_str s.
Proof.
  induction s as [|c s IH]; cbn; [reflexivity|].
  destruct (Ascii.eqb c zero) eqn:Hc; cbn; [reflexivity|].
  now rewrite Hc, IH.
Qed.

Lemma string_compare_refl (s : string) : String.compare s s = Eq.
Proof.
  pose proof (String.compare_antisym s s) as H.
  destruct (String.compare s s); cbn in H; congruence.
Qed.

Lemma Windows_key_compare_Eq key k :
  Windows.key_compare key k = Eq -> k = Windows.EvString key.
Proof.
  destruct k; cbn; try discriminate.
  intros H. apply String.compare_eq_iff in H. now subst.
Qed.

Lemma Windows_key_compare_refl key :
  Windows.key_compare key (Windows.EvString key) = Eq.
Proof. apply string_compare_refl. Qed.

Lemma Windows_find_assign_same m k v :
  Windows.EncodableMap_find (Windows.EncodableMap_assign m k v) k = Some v.
Proof.
  induction m as [|[k0 v0] m IH]; cbn.
  - now rewrite string_compare_refl.
  - destruct (Windows.key_compare k k0) eqn:Hc; cbn.
    + now rewrite Hc.
    + now rewrite string_compare_refl.
    + now rewrite Hc.
Qed.

Lemma Windows_find_assign_other m k k' v :
  k' <> k ->
  Windows.EncodableMap_find (Windows.EncodableMap_assign m k' v) k
  = Windows.EncodableMap_find m k.
Proof.
  intros Hne.
  assert (Hcmp : String.compare k k' <> Eq).
  { intros H. apply String.compare_eq_iff in H. congruence. }
  induction m as [|[k0 v0] m IH]; cbn.
  - destruct (String.compare k k'); congruence.
  - destruct (Windows.key_compare k' k0) eqn:Hc; cbn.
    + apply Windows_key_compare_Eq in Hc. subst k0. cbn.
      destruct (String.compare k k'); congruence.
    + destruct (String.compare k k'); congruence.
    + now rewrite IH.
Qed.

(** ** Query *)
Section Query.
Context {E : Sqlite3}.

Lemma Windows_Query_loop_emits db st rows db' st' :
  Emits db st rows db' st' ->
  forall fuel acc, (List.length rows < fuel)%nat ->
    Windows.Query_loop fuel db st acc
    = Some ((acc ++ map (fun s => Windows.EvMap (Windows.Query_row s)) rows)%list,
            db', st').
Proof.
  induction 1 as [db st rc db' st' Hstep Hrc
                 |db st db1 st1 rows db' st' Hstep _ IH];
    intros [|fuel] acc Hfuel; cbn in Hfuel; try lia; cbn; rewrite Hstep.
  - apply Z.eqb_neq in Hrc. rewrite Hrc. now rewrite app_nil_r.
  - cbn. rewrite IH by lia. now rewrite <- app_assoc.
Qed.

(** The Linux [Query] when the cursor has no row. *)
Lemma Linux_Query_no_row fuel path db sql db1 st rc db2 st2 :
  sqlite3_prepare_v2 db (c_str sql) = (SQLITE_OK, db1, st) ->
  sqlite3_step db1 st = (rc, db2, st2) ->
  rc <> SQLITE_ROW ->
  Linux.Query (S fuel) (Linux.mkDatabaseManager path (Some db)) sql
  = Linux.Returns
      (Linux.FvList [],
       Linux.mkDatabaseManager path (Some (sqlite3_finalize db2 st2))).
Proof.
  intros Hprep Hstep Hrc. apply Z.eqb_neq in Hrc.
  unfold Linux.Query. cbn -[c_str]. rewrite Hprep. cbn. rewrite Hstep, Hrc.
  reflexivity.
Qed.

(** The Linux [Query] when the text does not prepare. *)
Lemma Linux_Query_not_prepared fuel path db sql rc db1 st :
  sqlite3_prepare_v2 db (c_str sql) = (rc, db1, st) ->
  rc <> SQLITE_OK ->
  Linux.Query fuel (Linux.mkDatabaseManager path (Some db)) sql
  = Linux.Returns (Linux.FvList [], Linux.mkDatabaseManager path (Some db1)).
Proof.
  intros Hprep Hrc. apply Z.eqb_neq in Hrc.
  unfold Linux.Query. cbn -[c_str]. rewrite Hprep, Hrc. reflexivity.
Qed.

(** What the Linux [Query] returns is a list, and the manager it leaves
    differs from the one it found in the connection at most. *)
Lemma Linux_Query_return_list results h (m : Linux.DatabaseManager) v m' :
  Linux.Query_return results h m = Linux.Returns (v, m') ->
  (exists l, v = Linux.FvList l) /\ m' = m.
Proof.
  unfold Linux.Query_return, Linux.bind.
  destruct (Linux.fl_value_ref results h) as [h1| | |]; try discriminate.
  destruct (Linux.g_autoptr_cleanup results h1) as [h2| | |];
    try discriminate.
  destruct (Linux.fl_value_read_list h2 results) as [l|]; try discriminate.
  intros [= <- <-]. eauto.
Qed.

Lemma Linux_Query_returns_list fuel (m : Linux.DatabaseManager) sql v m' :
  Linux.Query fuel m sql = Linux.Returns (v, m') ->
  (exists l, v = Linux.FvList l) /\
  Linux.database_path_ m' = Linux.database_path_ m /\
  (Linux.database_ m' = None <-> Linux.database_ m = None).
Proof.
  unfold Linux.Query.
  destruct (Linux.fl_value_new (Linux.FlListObject []) []) as [results h].
  destruct m as [path [db|]]; cbn [Linux.database_].
  - destruct (sqlite3_prepare_v2 db (c_str sql)) as [[rc db1] st].
    destruct (negb (rc =? SQLITE_OK)).
    + intros H. apply Linux_Query_return_list in H.
      destruct H as [Hl ->]. cbn. repeat split; auto; discriminate.
    + unfold Linux.bind at 1.
      destruct (Linux.Query_loop fuel db1 st results h)
        as [[[db2 st2] h2]| | |]; try discriminate.
      intros H. apply Linux_Query_return_list in H.
      destruct H as [Hl ->]. cbn. repeat split; auto; discriminate.
  - intros H. apply Linux_Query_return_list in H.
    destruct H as [Hl ->]. repeat split; auto.
Qed.

(** The first row of a result, on Linux.  The loop over its columns hands
    each key and value to the map and then drops the reference it has
    handed over; the first column leaves the map with a released key, and
    the next comparison of keys, or the release of the row, uses it. *)
Lemma Linux_Query_first_row fuel path db sql db1 st db2 st1 :
  sqlite3_prepare_v2 db (c_str sql) = (SQLITE_OK, db1, st) ->
  sqlite3_step db1 st = (SQLITE_ROW, db2, st1) ->
  0 < sqlite3_column_count st1 ->
  Linux.Query (S fuel) (Linux.mkDatabaseManager path (Some db)) sql
  = Linux.UseAfterFree.
Proof.
  intros Hprep Hstep Hcols.
  unfold Linux.Query. cbn -[c_str]. rewrite Hprep.
  cbn -[column_indices]. rewrite Hstep. cbn -[column_indices].
  unfold column_indices.
  destruct (Z.to_nat (sqlite3_column_count st1)) as [|[|n]] eqn:Hn;
    [lia| |];
    cbn; unfold Linux.Query_value;
    destruct (sqlite3_column_type st1 0 =? SQLITE_INTEGER),
             (sqlite3_column_type st1 0 =? SQLITE_FLOAT),
             (sqlite3_column_type st1 0 =? SQLITE_TEXT); reflexivity.
Qed.

Lemma Windows_Query_value_projected st i :
  Windows_projected st i (Windows.Query_value st i).
Proof.
  unfold Windows_projected, Windows.Query_value.
  repeat apply conj.
  - intros ->. split; [reflexivity|apply sqlite3_column_int64_range].
  - intros ->. reflexivity.
  - intros ->. reflexivity.
  - intros H1 H2 H3.
    apply Z.eqb_neq in H1, H2, H3. now rewrite H1, H2, H3.
Qed.

Lemma Windows_Query_row_lookup st i :
  0 <= i < sqlite3_column_count st ->
  last_of_its_name st i ->
  Windows.EncodableMap_find (Windows.Query_row st) (sqlite3_column_name st i)
  = Some (Windows.Query_value st i).
Proof.
  intros Hi Hlast. unfold Windows.Query_row.
  destruct (column_indices_split _ _ Hi) as [l1 [l2 [-> Hl2]]].
  apply (fold_lookup _ _ Windows.EncodableMap_find Windows.EncodableMap_assign
           Windows_find_assign_same Windows_find_assign_other
           (sqlite3_column_name st) (Windows.Query_value st)).
  intros j Hj. apply Hlast, Hl2, Hj.
Qed.

(** X7: on Windows, when the statement prepares and its cursor completes
    after emitting [rows], [Query] (given fuel for these steps) returns
    one map for each row, in the order of emission.  The map of a row is
    built by entering, for each column index below the column count in
    turn, under the column's name, the value typed by the column's kind
    alone: integer gives the 64-bit integer read, float the double, text
    the text, any other kind null.  A lookup under the name of column [i]
    finds that value, unless a later column carries the same name. *)
Theorem Windows_Query_projects_by_kind fuel db sql db1 st rows db2 st2 path :
  sqlite3_prepare_v2 db (c_str sql) = (SQLITE_OK, db1, st) ->
  Emits db1 st rows db2 st2 ->
  (List.length rows < fuel)%nat ->
  exists results,
    Windows.Query fuel (Windows.mkDatabaseManager path (Some db)) sql
    = Some (results,
            Windows.mkDatabaseManager path
              (Some (sqlite3_finalize db2 st2))) /\
    List.length results = List.length rows /\
    forall k s, nth_error rows k = Some s ->
      exists row value,
        nth_error results k = Some (Windows.EvMap row) /\
        (forall i, Windows_projected s i (value i)) /\
        row = fold_left
                (fun r i =>
                   Windows.EncodableMap_assign r (sqlite3_column_name s i)
                     (value i))
                (column_indices (sqlite3_column_count s)) [] /\
        forall i, 0 <= i < sqlite3_column_count s ->
          last_of_its_name s i ->
          Windows.EncodableMap_find row (sqlite3_column_name s i)
          = Some (value i).
Proof.
  intros Hprep Hemits Hfuel.
  exists (map (fun s => Windows.EvMap (Windows.Query_row s)) rows).
  repeat apply conj.
  - unfold Windows.Query. cbn. rewrite Hprep. cbn.
    now rewrite (Windows_Query_loop_emits _ _ _ _ _ Hemits fuel [] Hfuel).
  - apply length_map.
  - intros k s Hk.
    exists (Windows.Query_row s), (Windows.Query_value s).
    repeat apply conj.
    + rewrite nth_error_map, Hk. reflexivity.
    + apply Windows_Query_value_projected.
    + reflexivity.
    + intros i Hi Hlast. now apply Windows_Query_row_lookup.
Qed.

Lemma Windows_query_call fuel (m : Windows.DatabaseManager) sql :
  Windows.HandleMethodCall fuel (Windows.mkPlugin (Some m)) "query"
    (Windows.EvMap [(Windows.EvString "sql", Windows.EvString sql)])
  = match Windows.Query fuel m sql with
    | None => None
    | Some (query_result, m') =>
        Some (Windows.Success (Some (Windows.EvList query_result)),
              Windows.mkPlugin (Some m'))
    end.
Proof. reflexivity. Qed.

Lemma Linux_query_call fuel (m : Linux.DatabaseManager) sql :
  Linux.handle_method_call fuel (Linux.mkPlugin (Some m)) "query"
    (Linux.FvMap [(Linux.FvString "sql", Linux.FvString sql)])
  = Linux.bind (Linux.Query fuel m (c_str sql))
      (fun r =>
         Linux.Returns (Linux.Success (Some (fst r)),
                        Linux.mkPlugin (Some (snd r)))).
Proof.
  unfold Linux.handle_method_call. cbn -[Linux.Query c_str].
  destruct (Linux.Query fuel m (c_str sql)) as [[results m']| | |];
    reflexivity.
Qed.

(** C3: [Query] has no failure to report.  With an open handle, whether
    the text fails to prepare or it prepares and its cursor yields no row,
    [Query] returns the empty list, and the [query] call answers with
    success and that empty list: the same reply in both cases.  On both
    platforms. *)
Theorem Query_failure_is_empty fuel db sql rc db1 st path :
  sqlite3_prepare_v2 db (c_str sql) = (rc, db1, st) ->
  rc <> SQLITE_OK \/
  (exists db2 st2, Emits db1 st [] db2 st2 /\ (0 < fuel)%nat) ->
  let wm := Windows.mkDatabaseManager path (Some db) in
  let lm := Linux.mkDatabaseManager path (Some db) in
  (exists wm',
      Windows.Query fuel wm sql = Some ([], wm') /\
      Windows.HandleMethodCall fuel (Windows.mkPlugin (Some wm)) "query"
        (Windows.EvMap [(Windows.EvString "sql", Windows.EvString sql)])
      = Some (Windows.Success (Some (Windows.EvList [])),
              Windows.mkPlugin (Some wm'))) /\
  (exists lm',
      Linux.Query fuel lm sql = Linux.Returns (Linux.FvList [], lm') /\
      Linux.handle_method_call fuel (Linux.mkPlugin (Some lm)) "query"
        (Linux.FvMap [(Linux.FvString "sql", Linux.FvString sql)])
      = Linux.Returns (Linux.Success (Some (Linux.FvList [])),
                       Linux.mkPlugin (Some lm'))).
Proof.
  intros Hprep Hcase wm lm.
  assert (HW : exists wm', Windows.Query fuel wm sql = Some ([], wm')).
  { unfold Windows.Query. cbn. rewrite Hprep.
    destruct Hcase as [Hrc | [db2 [st2 [Hemits Hfuel]]]].
    - apply Z.eqb_neq in Hrc. rewrite Hrc. cbn. eauto.
    - destruct (rc =? SQLITE_OK); cbn; [|eauto].
      rewrite (Windows_Query_loop_emits _ _ _ _ _ Hemits fuel [] Hfuel).
      cbn. eauto. }
  assert (HL : exists lm',
             Linux.Query fuel lm sql = Linux.Returns (Linux.FvList [], lm')).
  { destruct (Z.eq_dec rc SQLITE_OK) as [->|Hne].
    - destruct Hcase as [Hrc | [db2 [st2 [Hemits Hfuel]]]];
        [contradiction|].
      inversion Hemits as [? ? rc' ? ? Hstep Hrc'|]; subst.
      destruct fuel as [|fuel]; [lia|].
      eexists. exact (Linux_Query_no_row fuel path db sql db1 st rc' db2 st2
                        Hprep Hstep Hrc').
    - eexists. exact (Linux_Query_not_prepared fuel path db sql rc db1 st
                        Hprep Hne). }
  destruct HW as [wm' HW], HL as [lm' HL]. split.
  - exists wm'. split; [assumption|].
    now rewrite Windows_query_call, HW.
  - exists lm'. split; [assumption|].
    assert (HL' : Linux.Query fuel lm (c_str sql)
                  = Linux.Returns (Linux.FvList [], lm')).
    { unfold Linux.Query in *. now rewrite c_str_idempotent. }
    now rewrite Linux_query_call, HL'.
Qed.

End Query.

(** The statement that [SELECT * FROM default_items] prepares to on the
    stand-in engine, and the statement standing on its only row. *)
Lemma Toy_items_cursor :
  let sql := "SELECT * FROM default_items" in
  let st0 := Toy.mkStmt sql [] (Toy.table Toy.items) [] in
  let st1 := Toy.mkStmt sql [] [] [("name", Toy.CText "a"); ("qty", Toy.CInt 3)] in
  sqlite3_prepare_v2 (Sqlite3 := Toy.engine) Toy.items (c_str sql)
  = (SQLITE_OK, Toy.items, st0) /\
  Emits (E := Toy.engine) Toy.items st0 [st1] Toy.items st1.
Proof.
  intros sql st0 st1. split; [reflexivity|].
  refine (Emits_row (E := Toy.engine) Toy.items st0 Toy.items st1 []
            Toy.items st1 eq_refl _).
  refine (Emits_done (E := Toy.engine) Toy.items st1 SQLITE_DONE
            Toy.items st1 eq_refl _).
  discriminate.
Qed.

(** An instance of X7 on the stand-in engine: the query of the concrete
    scenario, one row [{name: "a", qty: 3}]. *)
Lemma Windows_Query_projects_by_kind_witness :
  let sql := "SELECT * FROM default_items" in
  let st1 := Toy.mkStmt sql [] [] [("name", Toy.CText "a"); ("qty", Toy.CInt 3)] in
  exists results,
    Windows.Query 2 (Toy.windows_manager Toy.items) sql
    = Some (results, Toy.windows_manager Toy.items) /\
    List.length results = 1%nat /\
    forall k s, nth_error [st1] k = Some s ->
      exists row value,
        nth_error results k = Some (Windows.EvMap row) /\
        (forall i, Windows_projected (E := Toy.engine) s i (value i)) /\
        row = fold_left
                (fun r i =>
                   Windows.EncodableMap_assign r
                     (sqlite3_column_name (Sqlite3 := Toy.engine) s i)
                     (value i))
                (column_indices
                   (sqlite3_column_count (Sqlite3 := Toy.engine) s)) [] /\
        forall i, 0 <= i < sqlite3_column_count (Sqlite3 := Toy.engine) s ->
          last_of_its_name (E := Toy.engine) s i ->
          Windows.EncodableMap_find row
            (sqlite3_column_name (Sqlite3 := Toy.engine) s i)
          = Some (value i).
Proof.
  intros sql st1.
  exact (Windows_Query_projects_by_kind (E := Toy.engine) 2 Toy.items sql
           Toy.items (Toy.mkStmt sql [] (Toy.table Toy.items) []) [st1]
           Toy.items st1 "app.db" (proj1 Toy_items_cursor)
           (proj2 Toy_items_cursor) (le_n 2)).
Defined.

(** C2 does not hold on Linux.  The Linux [Query] hands the key and the
    value of each column to the row, and each row to the list, and then
    drops the references it has handed over.  On every engine, a query
    whose cursor emits a first row with at least one column uses a
    released value: it does not come back with typed values.  At the
    query of the concrete scenario, whose cursor emits the row
    [{name: "a", qty: 3}], the comparison of keys for the second column
    reads the released key of the first, in [Query] and so in the [query]
    call.  The Windows [Query] returns the row as the specification
    describes it. *)
Theorem Linux_Query_uses_released_values :
  (forall (E : Sqlite3) fuel path db sql db1 st db2 st1,
      sqlite3_prepare_v2 db (c_str sql) = (SQLITE_OK, db1, st) ->
      sqlite3_step db1 st = (SQLITE_ROW, db2, st1) ->
      0 < sqlite3_column_count st1 ->
      Linux.Query (S fuel) (Linux.mkDatabaseManager path (Some db)) sql
      = Linux.UseAfterFree) /\
  let sql := "SELECT * FROM default_items" in
  Linux.Query 2 (Toy.linux_manager Toy.items) sql = Linux.UseAfterFree /\
  Linux.handle_method_call 2 (Toy.linux_plugin Toy.items) "query"
    (Linux.FvMap [(Linux.FvString "sql", Linux.FvString sql)])
  = Linux.UseAfterFree /\
  Windows.Query 2 (Toy.windows_manager Toy.items) sql
  = Some ([Windows.EvMap
             [(Windows.EvString "name", Windows.EvString "a");
              (Windows.EvString "qty", Windows.EvInt64 3)]],
          Toy.windows_manager Toy.items).
Proof.
  split; [|repeat split].
  intros E fuel path db sql db1 st db2 st1.
  apply Linux_Query_first_row.
Qed.

(** The same query through the handlers, evaluated. *)
Example Windows_query_items :
  Windows.HandleMethodCall 2 (Toy.windows_plugin Toy.items) "query"
    (Windows.EvMap [(Windows.EvString "sql",
                     Windows.EvString "SELECT * FROM default_items")])
  = Some (Windows.Success
            (Some (Windows.EvList
                     [Windows.EvMap
                        [(Windows.EvString "name", Windows.EvString "a");
                         (Windows.EvString "qty", Windows.EvInt64 3)]])),
          Toy.windows_plugin Toy.items).
Proof. reflexivity. Qed.

(** Columns of one name: the later value replaces the earlier one, and
    the Windows map lists its entries by key, not by column. *)
Example Windows_row_repeated_name :
  Windows.Query_row (E := Toy.engine)
    (Toy.mkStmt "SELECT" [] []
       [("b", Toy.CInt 1); ("a", Toy.CNull); ("b", Toy.CText "z")])
  = [(Windows.EvString "a", Windows.EvNull);
     (Windows.EvString "b", Windows.EvString "z")].
Proof. reflexivity. Qed.

(** An instance of C3 on the stand-in engine: a text that does not
    prepare, and a [SELECT] on a connection without rows, get the same
    reply. *)
Lemma Query_failure_is_empty_witness :
  let reply (sql : string) (d : Toy.db) :=
    (exists wm',
        Windows.Query 1 (Toy.windows_manager d) sql = Some ([], wm') /\
        Windows.HandleMethodCall 1 (Toy.windows_plugin d) "query"
          (Windows.EvMap [(Windows.EvString "sql", Windows.EvString sql)])
        = Some (Windows.Success (Some (Windows.EvList [])),
                Windows.mkPlugin (Some wm'))) /\
    (exists lm',
        Linux.Query 1 (Toy.linux_manager d) sql
        = Linux.Returns (Linux.FvList [], lm') /\
        Linux.handle_method_call 1 (Toy.linux_plugin d) "query"
          (Linux.FvMap [(Linux.FvString "sql", Linux.FvString sql)])
        = Linux.Returns (Linux.Success (Some (Linux.FvList [])),
                         Linux.mkPlugin (Some lm'))) in
  reply "SELEKT * FROM default_items" Toy.items /\
  reply "SELECT * FROM default_items" Toy.empty.
Proof.
  intros reply. split.
  - refine (Query_failure_is_empty (E := Toy.engine) 1 Toy.items
              "SELEKT * FROM default_items" SQLITE_ERROR Toy.items _
              "app.db" eq_refl (or_introl _)).
    discriminate.
  - refine (Query_failure_is_empty (E := Toy.engine) 1 Toy.empty
              "SELECT * FROM default_items" SQLITE_OK Toy.empty
              (Toy.mkStmt "SELECT * FROM default_items" [] [] [])
              "app.db" eq_refl (or_intror _)).
    exists Toy.empty, (Toy.mkStmt "SELECT * FROM default_items" [] [] []).
    split; [|apply le_n].
    refine (Emits_done (E := Toy.engine) Toy.empty
              (Toy.mkStmt "SELECT * FROM default_items" [] [] [])
              SQLITE_DONE Toy.empty
              (Toy.mkStmt "SELECT * FROM default_items" [] [] [])
              eq_refl _).
    discriminate.
Defined.

(** ** Insert *)
Section Insert.
Context {E : Sqlite3}.

Lemma string_append_assoc (a b c : string) : (a ++ b) ++ c = a ++ b ++ c.
Proof. induction a as [|x a IH]; cbn; [reflexivity|now rewrite IH]. Qed.

(** The first loop, once the [first] flag is down. *)
Lemma Windows_Insert_columns_rest (R : SpecRecord) (c p : string) :
  fold_left Windows.Insert_columns_step (to_EncodableMap R) (c, p, false)
  = match R with
    | [] => (c, p, false)
    | _ => (c ++ ", " ++ String.concat ", " (BuildInsert_columns R),
            p ++ ", " ++ String.concat ", " (BuildInsert_placeholders R),
            false)
    end.
Proof.
  revert c p. induction R as [|[k v] R IH]; intros c p; [reflexivity|].
  cbn [to_EncodableMap map fold_left]. unfold Windows.Insert_columns_step at 2.
  cbn [negb fst snd Windows.get_if_string].
  fold (to_EncodableMap R). rewrite IH.
  destruct R as [|f R]; cbn [BuildInsert_columns BuildInsert_placeholders map
                             String.concat fst].
  - now rewrite !string_append_assoc.
  - rewrite !string_append_assoc. reflexivity.
Qed.

(** The first loop from its start. *)
Lemma Windows_Insert_columns (R : SpecRecord) :
  fold_left Windows.Insert_columns_step (to_EncodableMap R) ("", "", true)
  = (String.concat ", " (BuildInsert_columns R),
     String.concat ", " (BuildInsert_placeholders R),
     match R with [] => true | _ => false end).
Proof.
  destruct R as [|[k v] R]; [reflexivity|].
  cbn [to_EncodableMap map fold_left]. unfold Windows.Insert_columns_step at 2.
  cbn [negb fst snd Windows.get_if_string].
  fold (to_EncodableMap R). rewrite Windows_Insert_columns_rest.
  destruct R as [|f R]; reflexivity.
Qed.

(** The second loop, started at any position. *)
Lemma Windows_Insert_bind_from (R : SpecRecord) (st : sqlite3_stmt) (k : nat) :
  fst (fold_left Windows.Insert_bind_step (to_EncodableMap R)
         (st, Z.of_nat k + 1))
  = fold_left
      (fun s p => Windows.Insert_bind_value s (Z.of_nat (fst p) + 1) (snd p))
      (combine (seq k (List.length (BuildInsert_parameters R)))
               (BuildInsert_parameters R))
      st.
Proof.
  revert st k. induction R as [|[n v] R IH]; intros st k; [reflexivity|].
  cbn [to_EncodableMap map fold_left BuildInsert_parameters List.length seq
       combine fst snd Windows.Insert_bind_step].
  fold (to_EncodableMap R). fold (BuildInsert_parameters R).
  replace (Z.of_nat k + 1 + 1) with (Z.of_nat (S k) + 1) by lia.
  apply IH.
Qed.

(** C1 on Windows: for a record whose keys are strings, the statement
    text is the one BuildInsert describes (one column name and one
    placeholder for each field, in iteration order) and the second loop
    binds the value of the field at position [k] at index [k + 1]; the
    three lists have the length of the record. *)
Lemma Windows_Insert_refines_BuildInsert (R : SpecRecord) (t s : string) :
  Windows.Insert_sql t (to_EncodableMap R) s = BuildInsert_text t s R /\
  (forall st,
      Windows.Insert_bind st (to_EncodableMap R)
      = bind_parameters st (BuildInsert_parameters R)) /\
  List.length (BuildInsert_columns R) = List.length R /\
  List.length (BuildInsert_placeholders R) = List.length R /\
  List.length (BuildInsert_parameters R) = List.length R.
Proof.
  repeat apply conj.
  - unfold Windows.Insert_sql, Windows.GetPrefixedTableName, BuildInsert_text.
    rewrite Windows_Insert_columns. now rewrite !string_append_assoc.
  - intros st. unfold Windows.Insert_bind, bind_parameters.
    apply (Windows_Insert_bind_from R st 0).
  - apply length_map.
  - apply length_map.
  - apply length_map.
Qed.

(** What [Insert] does with an open handle, on each platform. *)
Lemma Windows_Insert_open path db t data s rc db1 st :
  sqlite3_prepare_v2 db (c_str (Windows.Insert_sql t data s)) = (rc, db1, st) ->
  let m := Windows.mkDatabaseManager path (Some db) in
  (rc <> SQLITE_OK ->
     Windows.Insert m t data s
     = (-1, Windows.mkDatabaseManager path (Some db1))) /\
  (rc = SQLITE_OK ->
     forall r db2 st2,
       sqlite3_step db1 (Windows.Insert_bind st data) = (r, db2, st2) ->
       Windows.Insert m t data s
       = (if r =? SQLITE_DONE
          then sqlite3_last_insert_rowid (sqlite3_finalize db2 st2)
          else -1,
          Windows.mkDatabaseManager path (Some (sqlite3_finalize db2 st2)))).
Proof.
  intros Hprep m. unfold Windows.Insert. cbn. rewrite Hprep. split.
  - intros Hrc. apply Z.eqb_neq in Hrc. now rewrite Hrc.
  - intros -> r db2 st2 Hstep. cbn. rewrite Hstep.
    destruct (r =? SQLITE_DONE); reflexivity.
Qed.

Lemma Linux_Insert_open path db t data s rc db1 st :
  Linux.is_map data = true ->
  sqlite3_prepare_v2 db (c_str (Linux.Insert_sql t data s)) = (rc, db1, st) ->
  let m := Linux.mkDatabaseManager path (Some db) in
  (rc <> SQLITE_OK ->
     Linux.Insert m t data s
     = (-1, Linux.mkDatabaseManager path (Some db1))) /\
  (rc = SQLITE_OK ->
     forall r db2 st2,
       sqlite3_step db1 st = (r, db2, st2) ->
       Linux.Insert m t data s
       = (if r =? SQLITE_DONE
          then sqlite3_last_insert_rowid (sqlite3_finalize db2 st2)
          else -1,
          Linux.mkDatabaseManager path (Some (sqlite3_finalize db2 st2)))).
Proof.
  intros Hmap Hprep m. unfold Linux.Insert. cbn [Linux.database_ m].
  rewrite Hmap. cbn [negb]. rewrite Hprep. split.
  - intros Hrc. apply Z.eqb_neq in Hrc. now rewrite Hrc.
  - intros -> r db2 st2 Hstep. cbn [Z.eqb SQLITE_OK negb]. rewrite Hstep.
    destruct (r =? SQLITE_DONE); reflexivity.
Qed.

(** X1: [Insert] on Windows, end to end, for a record with string keys: the
    text of BuildInsert is prepared, its parameters are bound in order, and
    the statement is stepped once. *)
Lemma Windows_Insert_as_BuildInsert path db t s (R : SpecRecord) db1 st r db2 st2 :
  sqlite3_prepare_v2 db (c_str (BuildInsert_text t s R)) = (SQLITE_OK, db1, st) ->
  sqlite3_step db1 (bind_parameters st (BuildInsert_parameters R))
  = (r, db2, st2) ->
  Windows.Insert (Windows.mkDatabaseManager path (Some db)) t
    (to_EncodableMap R) s
  = (if r =? SQLITE_DONE
     then sqlite3_last_insert_rowid (sqlite3_finalize db2 st2)
     else -1,
     Windows.mkDatabaseManager path (Some (sqlite3_finalize db2 st2))).
Proof.
  intros Hprep Hstep.
  destruct (Windows_Insert_refines_BuildInsert R t s) as [Hsql [Hbind _]].
  rewrite <- Hsql in Hprep. rewrite <- Hbind in Hstep.
  exact (proj2 (Windows_Insert_open path db t (to_EncodableMap R) s
                  SQLITE_OK db1 st Hprep) eq_refl r db2 st2 Hstep).
Qed.

(** On Linux the record has no part in the statement or in the result. *)
Lemma Linux_Insert_ignores_record (m : Linux.DatabaseManager) t s d1 d2 :
  Linux.is_map d1 = true -> Linux.is_map d2 = true ->
  Linux.Insert_sql t d1 s = "INSERT INTO " ++ s ++ "_" ++ t ++ " DEFAULT VALUES" /\
  Linux.Insert m t d1 s = Linux.Insert m t d2 s.
Proof.
  intros H1 H2. split.
  - unfold Linux.Insert_sql, Linux.GetPrefixedTableName.
    now rewrite !string_append_assoc.
  - unfold Linux.Insert. now rewrite H1, H2.
Qed.

(** The [insert] call with a table name and a record of the right types,
    in terms of [Insert]. *)
Lemma Windows_insert_call fuel (m : Windows.DatabaseManager) wa t data :
  Windows.EncodableMap_find wa "tableName" = Some (Windows.EvString t) ->
  Windows.EncodableMap_find wa "data" = Some (Windows.EvMap data) ->
  Windows.HandleMethodCall fuel (Windows.mkPlugin (Some m)) "insert"
    (Windows.EvMap wa)
  = Windows_insert_reply
      (Windows.Insert m t data
         match Windows.EncodableMap_find wa "space" with
         | Some (Windows.EvString s) => s
         | _ => "default"
         end).
Proof.
  intros Ht Hd. unfold Windows.HandleMethodCall, Windows_insert_reply.
  cbn -[Windows.Insert Windows.EncodableMap_find].
  rewrite Ht, Hd. cbn -[Windows.Insert Windows.EncodableMap_find].
  destruct (Windows.EncodableMap_find wa "space") as [[]|];
    cbn -[Windows.Insert];
    match goal with
    | |- context [Windows.Insert ?a ?b ?c ?d] =>
        destruct (Windows.Insert a b c d) as [id m']
    end; cbn; destruct (id >=? 0); reflexivity.
Qed.

Lemma Linux_insert_call fuel (m : Linux.DatabaseManager) la t data space :
  Linux.lookup_entries la "tableName" = Some (Linux.FvString t) ->
  Linux.lookup_entries la "data" = Some data ->
  Linux_space_of la = Some space ->
  Linux.handle_method_call fuel (Linux.mkPlugin (Some m)) "insert"
    (Linux.FvMap la)
  = Linux_insert_reply (Linux.Insert m (c_str t) data (c_str space)).
Proof.
  intros Ht Hd Hs. unfold Linux.handle_method_call, Linux_insert_reply.
  cbn -[Linux.Insert Linux.lookup_entries c_str].
  rewrite Ht, Hd. cbn -[Linux.Insert Linux.lookup_entries c_str].
  unfold Linux_space_of in Hs. rewrite Hs.
  destruct (Linux.Insert m (c_str t) data (c_str space)) as [id m'].
  cbn. destruct (id >=? 0); reflexivity.
Qed.

End Insert.

Section InsertCall.
Context {E : Sqlite3}.

Lemma Windows_insert_reply_cases (r : Z * Windows.DatabaseManager) :
  exists res self',
    Windows_insert_reply r = Some (res, self') /\
    Windows_is_InvalidArgument res = false /\
    ((0 <= fst r /\ res = Windows.Success (Some (Windows.EvInt64 (fst r)))) \/
     (fst r < 0 /\ res = Windows.Error "INSERT_ERROR" "Failed to insert data")).
Proof.
  unfold Windows_insert_reply.
  rewrite Z.geb_leb.
  destruct (0 <=? fst r) eqn:Hid; eexists _, _;
    (split; [reflexivity|]); (split; [reflexivity|]).
  - left. apply Z.leb_le in Hid. now split.
  - right. apply Z.leb_gt in Hid. now split.
Qed.

Lemma Linux_insert_reply_cases (r : Z * Linux.DatabaseManager) :
  exists res self',
    Linux_insert_reply r = Linux.Returns (res, self') /\
    Linux_is_InvalidArgument res = false /\
    ((0 <= fst r /\ res = Linux.Success (Some (Linux.FvInt (fst r)))) \/
     (fst r < 0 /\ res = Linux.Error "INSERT_ERROR" "Failed to insert data")).
Proof.
  unfold Linux_insert_reply.
  rewrite Z.geb_leb.
  destruct (0 <=? fst r) eqn:Hid; eexists _, _;
    (split; [reflexivity|]); (split; [reflexivity|]).
  - left. apply Z.leb_le in Hid. now split.
  - right. apply Z.leb_gt in Hid. now split.
Qed.

End InsertCall.

(** C5 fails as stated: an [insert] with an empty table name and an empty
    space is not answered with INVALID_ARGS; the statement for the table
    [_] is built and executed, here with the row id 1 as the reply. *)
Lemma empty_names_are_not_InvalidArgument :
  let after (text : string) (bound : list (Z * Toy.binding)) :=
    Toy.mkDb (Toy.table Toy.items) 1 1 [(text, bound)] in
  Windows.HandleMethodCall 1 (Toy.windows_plugin Toy.items) "insert"
    (Windows.EvMap (Toy.windows_insert_args "" (Some "")))
  = Some (Windows.Success (Some (Windows.EvInt64 1)),
          Toy.windows_plugin
            (after "INSERT INTO _ (name, qty) VALUES (?, ?)"
                   [(1, Toy.BText "a"); (2, Toy.BInt 3)])) /\
  Windows_is_InvalidArgument (Windows.Success (Some (Windows.EvInt64 1)))
  = false /\
  Linux.handle_method_call 1 (Toy.linux_plugin Toy.items) "insert"
    (Linux.FvMap (Toy.linux_insert_args "" (Some "")))
  = Linux.Returns
      (Linux.Success (Some (Linux.FvInt 1)),
       Toy.linux_plugin (after "INSERT INTO _ DEFAULT VALUES" [])) /\
  Linux_is_InvalidArgument (Linux.Success (Some (Linux.FvInt 1))) = false.
Proof. repeat split. Qed.

(** C1 does not hold on Linux.  There [Insert] prepares a text without
    column list and placeholders and binds nothing, so that its result is
    the same for any two records, on every engine.  At
    [insert("items", {name: "a", qty: 3})] on the stand-in engine it
    executes [INSERT INTO default_items DEFAULT VALUES] with no binding,
    where the specification asks for two columns, two placeholders and two
    bound values; the Windows [Insert] executes exactly that. *)
Theorem Linux_Insert_names_no_column :
  (forall (E : Sqlite3) (m : Linux.DatabaseManager) t s record1 record2,
      Linux.Insert_sql t (Linux.FvMap record1) s
      = "INSERT INTO " ++ (s ++ "_" ++ t) ++ " DEFAULT VALUES" /\
      Linux.Insert m t (Linux.FvMap record1) s
      = Linux.Insert m t (Linux.FvMap record2) s) /\
  Linux.Insert (Toy.linux_manager Toy.items) "items" Toy.linux_record "default"
  = (1, Toy.linux_manager
          (Toy.mkDb (Toy.table Toy.items) 1 1
             [("INSERT INTO default_items DEFAULT VALUES", [])])) /\
  Windows.Insert (Toy.windows_manager Toy.items) "items" Toy.windows_record
    "default"
  = (1, Toy.windows_manager
          (Toy.mkDb (Toy.table Toy.items) 1 1
             [("INSERT INTO default_items (name, qty) VALUES (?, ?)",
               [(1, Toy.BText "a"); (2, Toy.BInt 3)])])).
Proof.
  split; [|split; reflexivity].
  intros E m t s record1 record2. split; [reflexivity|].
  apply (Linux_Insert_ignores_record m t s); reflexivity.
Qed.

(** ** Further properties of the managers *)

(** [Windows.Insert] on the record [{name: "a", qty: 3}], on the stand-in
    engine. *)
Lemma Windows_Insert_as_BuildInsert_witness :
  let R : SpecRecord :=
    [("name", Windows.EvString "a"); ("qty", Windows.EvInt32 3)] in
  Windows.Insert (Toy.windows_manager Toy.items) "items" (to_EncodableMap R)
    "default"
  = (1, Toy.windows_manager
          (Toy.mkDb (Toy.table Toy.items) 1 1
             [("INSERT INTO default_items (name, qty) VALUES (?, ?)",
               [(1, Toy.BText "a"); (2, Toy.BInt 3)])])).
Proof.
  intros R.
  exact (Windows_Insert_as_BuildInsert (E := Toy.engine) "app.db" Toy.items
           "items" "default" R Toy.items
           (Toy.mkStmt "INSERT INTO default_items (name, qty) VALUES (?, ?)"
              [] [] [])
           SQLITE_DONE
           (Toy.mkDb (Toy.table Toy.items) 1 1
              [("INSERT INTO default_items (name, qty) VALUES (?, ?)",
                [(1, Toy.BText "a"); (2, Toy.BInt 3)])])
           (Toy.mkStmt "INSERT INTO default_items (name, qty) VALUES (?, ?)"
              [(1, Toy.BText "a"); (2, Toy.BInt 3)] [] [])
           eq_refl eq_refl).
Defined.

Section InsertAnyKeys.
Context {E : Sqlite3}.

Lemma string_append_nil_r (s : string) : s ++ "" = s.
Proof. induction s as [|c s IH]; cbn; [reflexivity|now rewrite IH]. Qed.

Lemma Windows_columns_step_any (c p : string) (first : bool)
  (e : Windows.EncodableValue * Windows.EncodableValue) :
  Windows.Insert_columns_step (c, p, first) e
  = ((if first then c else c ++ ", ") ++ key_column (fst e),
     (if first then p else p ++ ", ") ++ key_placeholder (fst e),
     false).
Proof.
  unfold Windows.Insert_columns_step, key_column, key_placeholder.
  destruct first, (Windows.get_if_string (fst e));
    cbn [negb]; now rewrite ?string_append_nil_r.
Qed.

Lemma Windows_columns_rest_any (data : Windows.EncodableMap) (c p : string) :
  fold_left Windows.Insert_columns_step data (c, p, false)
  = match data with
    | [] => (c, p, false)
    | _ =>
        (c ++ ", " ++ String.concat ", " (map (fun e => key_column (fst e)) data),
         p ++ ", " ++
         String.concat ", " (map (fun e => key_placeholder (fst e)) data),
         false)
    end.
Proof.
  revert c p.
  induction data as [|e data IH]; intros c p; [reflexivity|].
  cbn [fold_left]. rewrite Windows_columns_step_any, IH.
  destruct data as [|e' data]; cbn [map String.concat];
    now rewrite !string_append_assoc.
Qed.

Lemma Windows_bind_from_any (data : Windows.EncodableMap) (st : sqlite3_stmt)
  (k : nat) :
  fst (fold_left Windows.Insert_bind_step data (st, Z.of_nat k + 1))
  = fold_left
      (fun s p => Windows.Insert_bind_value s (Z.of_nat (fst p) + 1) (snd p))
      (combine (seq k (List.length (map snd data))) (map snd data))
      st.
Proof.
  revert st k. induction data as [|e data IH]; intros st k; [reflexivity|].
  cbn [fold_left map List.length seq combine fst snd Windows.Insert_bind_step].
  replace (Z.of_nat k + 1 + 1) with (Z.of_nat (S k) + 1) by lia.
  apply IH.
Qed.

(** X2: For any record, whatever its keys: the column list of the Windows
    [Insert] holds, separated by commas, the text of each string key and
    nothing for any other key, the placeholder list a [?] for each string
    key and nothing for any other; and the value of every entry, string
    key or not, is bound, the entry at position [k] at index [k + 1]. *)
Theorem Windows_Insert_any_keys (t s : string) (data : Windows.EncodableMap) :
  Windows.Insert_sql t data s
  = "INSERT INTO " ++ (s ++ "_" ++ t) ++
    " (" ++ String.concat ", " (map (fun e => key_column (fst e)) data) ++
    ") VALUES (" ++
    String.concat ", " (map (fun e => key_placeholder (fst e)) data) ++ ")" /\
  forall st,
    Windows.Insert_bind st data = bind_parameters st (map snd data).
Proof.
  split.
  - unfold Windows.Insert_sql, Windows.GetPrefixedTableName.
    destruct data as [|e data]; [reflexivity|].
    cbn [fold_left]. rewrite Windows_columns_step_any.
    rewrite Windows_columns_rest_any.
    destruct data as [|e' data]; cbn [map String.concat]; reflexivity.
  - intros st. apply (Windows_bind_from_any data st 0).
Qed.

(** X3: After [Close], and on a manager as constructed, [Insert], [Query],
    [Update] and [Delete] return [-1], the empty list, [0] and [0], and
    leave the manager as it is. *)
Theorem closed_manager_operations :
  (forall (m : Windows.DatabaseManager) path fuel t d s sql a,
      let c := Windows.Close m in
      let n := Windows.new_DatabaseManager path in
      (Windows.Insert c t d s = (-1, c) /\
       Windows.Query fuel c sql = Some ([], c) /\
       Windows.Update c sql a = (0, c) /\
       Windows.Delete c sql a = (0, c)) /\
      (Windows.Insert n t d s = (-1, n) /\
       Windows.Query fuel n sql = Some ([], n) /\
       Windows.Update n sql a = (0, n) /\
       Windows.Delete n sql a = (0, n))) /\
  (forall (m : Linux.DatabaseManager) path fuel t d s sql a,
      let c := Linux.Close m in
      let n := Linux.new_DatabaseManager path in
      (Linux.Insert c t d s = (-1, c) /\
       Linux.Query fuel c sql = Linux.Returns (Linux.FvList [], c) /\
       Linux.Update c sql a = (0, c) /\
       Linux.Delete c sql a = (0, c)) /\
      (Linux.Insert n t d s = (-1, n) /\
       Linux.Query fuel n sql = Linux.Returns (Linux.FvList [], n) /\
       Linux.Update n sql a = (0, n) /\
       Linux.Delete n sql a = (0, n))).
Proof.
  split; intros m path fuel t d s sql a c n.
  - destruct (proj1 null_handle_guard c fuel t d s sql a
                (Windows_Close_closed m)) as [Hi [Hq Hu]].
    destruct (proj1 null_handle_guard n fuel t d s sql a eq_refl)
      as [Hi' [Hq' Hu']].
    unfold Windows.Delete. auto 10.
  - destruct (proj2 null_handle_guard c fuel t d s sql a
                (Linux_Close_closed m)) as [Hi [Hq Hu]].
    destruct (proj2 null_handle_guard n fuel t d s sql a eq_refl)
      as [Hi' [Hq' Hu']].
    unfold Linux.Delete. auto 10.
Qed.

(** X4: [Insert], [Query], [Update] and [Delete] keep the path, and they
    neither open nor null the handle: it is null afterwards exactly when
    it was null before. *)
Theorem operations_keep_the_handle :
  (forall (m : Windows.DatabaseManager) fuel t d s sql a,
      let same (m' : Windows.DatabaseManager) :=
        Windows.database_path_ m' = Windows.database_path_ m /\
        (Windows.database_ m' = None <-> Windows.database_ m = None) in
      same (snd (Windows.Insert m t d s)) /\
      same (snd (Windows.Update m sql a)) /\
      same (snd (Windows.Delete m sql a)) /\
      match Windows.Query fuel m sql with
      | Some (_, m') => same m'
      | None => True
      end) /\
  (forall (m : Linux.DatabaseManager) fuel t d s sql a,
      let same (m' : Linux.DatabaseManager) :=
        Linux.database_path_ m' = Linux.database_path_ m /\
        (Linux.database_ m' = None <-> Linux.database_ m = None) in
      same (snd (Linux.Insert m t d s)) /\
      same (snd (Linux.Update m sql a)) /\
      same (snd (Linux.Delete m sql a)) /\
      match Linux.Query fuel m sql with
      | Linux.Returns (_, m') => same m'
      | _ => True
      end).
Proof.
  split; intros m fuel t d s sql a same; subst same.
  - unfold Windows.Delete, Windows.Insert, Windows.Update, Windows.Query;
      destruct m as [path [db|]]; cbn -[c_str];
      repeat match goal with
             | |- context [let '(_, _) := ?x in _] => destruct x as [[? ?] ?]
             | |- context [if ?b then _ else _] => destruct b
             | |- context [match ?x with Some _ => _ | None => _ end] =>
                 destruct x as [[[? ?] ?]|]
             end;
      cbn; repeat split; auto; try discriminate.
  - assert (HQ : match Linux.Query fuel m sql with
                 | Linux.Returns (_, m') =>
                     Linux.database_path_ m' = Linux.database_path_ m /\
                     (Linux.database_ m' = None <-> Linux.database_ m = None)
                 | _ => True
                 end).
    { destruct (Linux.Query fuel m sql) as [[v m']| | |] eqn:HQ; auto.
      apply Linux_Query_returns_list in HQ. tauto. }
    split; [|split; [|split; [|exact HQ]]];
      unfold Linux.Delete, Linux.Insert, Linux.Update;
      destruct m as [path [db|]]; cbn -[c_str];
      repeat match goal with
             | |- context [let '(_, _) := ?x in _] => destruct x as [[? ?] ?]
             | |- context [if ?b then _ else _] => destruct b
             end;
      cbn; repeat split; auto; try discriminate.
Qed.

End InsertAnyKeys.

(** ** The names an [insert] carries *)
Section InsertNames.
Context {E : Sqlite3}.

Lemma Windows_Insert_sql_any (t s : string) (data : Windows.EncodableMap) :
  Windows.Insert_sql t data s
  = "INSERT INTO " ++ (s ++ "_" ++ t) ++
    " (" ++ String.concat ", " (map (fun e => key_column (fst e)) data) ++
    ") VALUES (" ++
    String.concat ", " (map (fun e => key_placeholder (fst e)) data) ++ ")".
Proof.
  unfold Windows.Insert_sql, Windows.GetPrefixedTableName.
  destruct data as [|e data]; [reflexivity|].
  cbn [fold_left]. rewrite Windows_columns_step_any.
  rewrite Windows_columns_rest_any.
  destruct data as [|e' data]; cbn [map String.concat]; reflexivity.
Qed.

Lemma Windows_Insert_bind_any (st : sqlite3_stmt) (data : Windows.EncodableMap) :
  Windows.Insert_bind st data = bind_parameters st (map snd data).
Proof. apply (Windows_bind_from_any data st 0). Qed.

Lemma has_NUL_app (a b : string) : has_NUL (a ++ b) = has_NUL a || has_NUL b.
Proof.
  induction a as [|c a IH]; cbn; [reflexivity|].
  rewrite IH. now rewrite orb_assoc.
Qed.

Lemma c_str_app_no_NUL (a b : string) :
  has_NUL a = false -> c_str (a ++ b) = a ++ c_str b.
Proof.
  induction a as [|c a IH]; cbn; [reflexivity|].
  intros H. apply orb_false_iff in H. destruct H as [Hc Ha].
  rewrite Hc. now rewrite IH.
Qed.

Lemma c_str_no_NUL (a : string) : has_NUL a = false -> c_str a = a.
Proof.
  intros H. rewrite <- (string_append_nil_r a) at 1.
  rewrite (c_str_app_no_NUL a "" H). apply string_append_nil_r.
Qed.

(** The [insert] call on an open connection, in terms of the engine's
    answers to the preparation of the text and to the one step. *)
Lemma Windows_insert_outcome fuel path db wa t data (space : option string)
  rc db1 st r db2 st2 :
  Windows.EncodableMap_find wa "tableName" = Some (Windows.EvString t) ->
  Windows.EncodableMap_find wa "data" = Some (Windows.EvMap data) ->
  Windows.EncodableMap_find wa "space" = option_map Windows.EvString space ->
  sqlite3_prepare_v2 db (c_str (Windows.Insert_sql t data (space_str space)))
  = (rc, db1, st) ->
  sqlite3_step db1 (Windows.Insert_bind st data) = (r, db2, st2) ->
  Windows.HandleMethodCall fuel
    (Windows.mkPlugin (Some (Windows.mkDatabaseManager path (Some db))))
    "insert" (Windows.EvMap wa)
  = Windows_insert_reply
      (if rc =? SQLITE_OK
       then (if r =? SQLITE_DONE
             then sqlite3_last_insert_rowid (sqlite3_finalize db2 st2)
             else -1,
             Windows.mkDatabaseManager path (Some (sqlite3_finalize db2 st2)))
       else (-1, Windows.mkDatabaseManager path (Some db1))).
Proof.
  intros Ht Hd Hs Hprep Hstep.
  rewrite (Windows_insert_call fuel _ wa t data Ht Hd), Hs.
  replace (match option_map Windows.EvString space with
           | Some (Windows.EvString s) => s
           | _ => "default"
           end) with (space_str space) by (destruct space; reflexivity).
  destruct (Windows_Insert_open path db t data (space_str space) rc db1 st
              Hprep) as [Hfail Hok].
  destruct (rc =? SQLITE_OK) eqn:Hrc.
  - apply Z.eqb_eq in Hrc. now rewrite (Hok Hrc r db2 st2 Hstep).
  - apply Z.eqb_neq in Hrc. now rewrite (Hfail Hrc).
Qed.

Lemma Linux_insert_outcome fuel path db la t data (space : option string)
  rc db1 st r db2 st2 :
  Linux.lookup_entries la "tableName" = Some (Linux.FvString t) ->
  Linux.lookup_entries la "data" = Some (Linux.FvMap data) ->
  Linux.lookup_entries la "space" = option_map Linux.FvString space ->
  sqlite3_prepare_v2 db
    (c_str (Linux.Insert_sql (c_str t) (Linux.FvMap data)
              (c_str (space_str space))))
  = (rc, db1, st) ->
  sqlite3_step db1 st = (r, db2, st2) ->
  Linux.handle_method_call fuel
    (Linux.mkPlugin (Some (Linux.mkDatabaseManager path (Some db))))
    "insert" (Linux.FvMap la)
  = Linux_insert_reply
      (if rc =? SQLITE_OK
       then (if r =? SQLITE_DONE
             then sqlite3_last_insert_rowid (sqlite3_finalize db2 st2)
             else -1,
             Linux.mkDatabaseManager path (Some (sqlite3_finalize db2 st2)))
       else (-1, Linux.mkDatabaseManager path (Some db1))).
Proof.
  intros Ht Hd Hs Hprep Hstep.
  assert (Hspace : Linux_space_of la = Some (space_str space)).
  { unfold Linux_space_of. rewrite Hs. destruct space; reflexivity. }
  rewrite (Linux_insert_call fuel _ la t (Linux.FvMap data) (space_str space)
             Ht Hd Hspace).
  destruct (Linux_Insert_open path db (c_str t) (Linux.FvMap data)
              (c_str (space_str space)) rc db1 st eq_refl Hprep)
    as [Hfail Hok].
  destruct (rc =? SQLITE_OK) eqn:Hrc.
  - apply Z.eqb_eq in Hrc. now rewrite (Hok Hrc r db2 st2 Hstep).
  - apply Z.eqb_neq in Hrc. now rewrite (Hfail Hrc).
Qed.

(** C5, as the code has it: [insert] tests neither the table name nor the
    space nor the column names.  On an open connection, for every table
    name and every space, the empty string included (["default"] when the
    call carries no space), and for every record: the text for the table
    named space, underscore, table is handed to the engine as a C string,
    on Windows with the text of each string key of the record in its
    column list, on Linux with [DEFAULT VALUES]; when the engine prepares
    it, the statement is stepped once, on Windows after the values of the
    record have been bound in order.  The reply is the row id when the
    engine prepares the text, completes the step and reports a row id
    that is not negative, and INSERT_ERROR otherwise; it is never
    INVALID_ARGS.  The manager holds the connection the engine left. *)
Theorem insert_runs_for_any_names fuel path db wa la (t : string)
  (wdata : Windows.EncodableMap) ldata (space : option string)
  wrc wdb1 wst wr wdb2 wst2 lrc ldb1 lst lr ldb2 lst2 :
  let s := space_str space in
  let wtext :=
    "INSERT INTO " ++ (s ++ "_" ++ t) ++
    " (" ++ String.concat ", " (map (fun e => key_column (fst e)) wdata) ++
    ") VALUES (" ++
    String.concat ", " (map (fun e => key_placeholder (fst e)) wdata) ++ ")" in
  let ltext :=
    "INSERT INTO " ++ (c_str s ++ "_" ++ c_str t) ++ " DEFAULT VALUES" in
  Windows.EncodableMap_find wa "tableName" = Some (Windows.EvString t) ->
  Windows.EncodableMap_find wa "data" = Some (Windows.EvMap wdata) ->
  Windows.EncodableMap_find wa "space" = option_map Windows.EvString space ->
  Linux.lookup_entries la "tableName" = Some (Linux.FvString t) ->
  Linux.lookup_entries la "data" = Some (Linux.FvMap ldata) ->
  Linux.lookup_entries la "space" = option_map Linux.FvString space ->
  sqlite3_prepare_v2 db (c_str wtext) = (wrc, wdb1, wst) ->
  sqlite3_step wdb1 (bind_parameters wst (map snd wdata)) = (wr, wdb2, wst2) ->
  sqlite3_prepare_v2 db (c_str ltext) = (lrc, ldb1, lst) ->
  sqlite3_step ldb1 lst = (lr, ldb2, lst2) ->
  let wid :=
    if wrc =? SQLITE_OK
    then if wr =? SQLITE_DONE
         then sqlite3_last_insert_rowid (sqlite3_finalize wdb2 wst2)
         else -1
    else -1 in
  let wres :=
    if wid >=? 0 then Windows.Success (Some (Windows.EvInt64 wid))
    else Windows.Error "INSERT_ERROR" "Failed to insert data" in
  let lid :=
    if lrc =? SQLITE_OK
    then if lr =? SQLITE_DONE
         then sqlite3_last_insert_rowid (sqlite3_finalize ldb2 lst2)
         else -1
    else -1 in
  let lres :=
    if lid >=? 0 then Linux.Success (Some (Linux.FvInt lid))
    else Linux.Error "INSERT_ERROR" "Failed to insert data" in
  Windows.HandleMethodCall fuel
    (Windows.mkPlugin (Some (Windows.mkDatabaseManager path (Some db))))
    "insert" (Windows.EvMap wa)
  = Some (wres,
          Windows.mkPlugin
            (Some (Windows.mkDatabaseManager path
                     (Some (if wrc =? SQLITE_OK
                            then sqlite3_finalize wdb2 wst2 else wdb1))))) /\
  Windows_is_InvalidArgument wres = false /\
  Linux.handle_method_call fuel
    (Linux.mkPlugin (Some (Linux.mkDatabaseManager path (Some db))))
    "insert" (Linux.FvMap la)
  = Linux.Returns
      (lres,
       Linux.mkPlugin
         (Some (Linux.mkDatabaseManager path
                  (Some (if lrc =? SQLITE_OK
                         then sqlite3_finalize ldb2 lst2 else ldb1))))) /\
  Linux_is_InvalidArgument lres = false.
Proof.
  intros s wtext ltext Hwt Hwd Hws Hlt Hld Hls Hwp Hwstep Hlp Hlstep
         wid wres lid lres.
  unfold wtext in Hwp. rewrite <- Windows_Insert_sql_any in Hwp.
  rewrite <- Windows_Insert_bind_any in Hwstep.
  repeat apply conj.
  - rewrite (Windows_insert_outcome fuel path db wa t wdata space
               wrc wdb1 wst wr wdb2 wst2 Hwt Hwd Hws Hwp Hwstep).
    unfold Windows_insert_reply, wres, wid.
    destruct (wrc =? SQLITE_OK); reflexivity.
  - unfold wres. destruct (wid >=? 0); reflexivity.
  - rewrite (Linux_insert_outcome fuel path db la t ldata space
               lrc ldb1 lst lr ldb2 lst2 Hlt Hld Hls Hlp Hlstep).
    unfold Linux_insert_reply, lres, lid.
    destruct (lrc =? SQLITE_OK); reflexivity.
  - unfold lres. destruct (lid >=? 0); reflexivity.
Qed.

(** C6, for names without a NUL character: on an open connection, an
    [insert] for the table [t] that carries the space [s], or carries no
    space and so uses [s = "default"], hands the engine a text that
    begins with [INSERT INTO], a blank and the name [s], underscore, [t],
    which is the prefixed name of [t] in [s]: on Windows the column list
    follows, on Linux [DEFAULT VALUES].  The reply is the row id when the
    engine prepares this text, completes the one step and reports a row
    id that is not negative, and INSERT_ERROR otherwise, and the manager
    holds the connection the engine left. *)
Theorem insert_targets_space_table_without_NUL fuel path db wa la (t : string)
  (wdata : Windows.EncodableMap) ldata (space : option string)
  wrc wdb1 wst wr wdb2 wst2 lrc ldb1 lst lr ldb2 lst2 :
  let s := match space with Some s => s | None => "default" end in
  let name := s ++ "_" ++ t in
  let columns :=
    String.concat ", " (map (fun e => key_column (fst e)) wdata) in
  let placeholders :=
    String.concat ", " (map (fun e => key_placeholder (fst e)) wdata) in
  has_NUL t = false ->
  has_NUL s = false ->
  Windows.EncodableMap_find wa "tableName" = Some (Windows.EvString t) ->
  Windows.EncodableMap_find wa "data" = Some (Windows.EvMap wdata) ->
  Windows.EncodableMap_find wa "space" = option_map Windows.EvString space ->
  Linux.lookup_entries la "tableName" = Some (Linux.FvString t) ->
  Linux.lookup_entries la "data" = Some (Linux.FvMap ldata) ->
  Linux.lookup_entries la "space" = option_map Linux.FvString space ->
  sqlite3_prepare_v2 db
    ("INSERT INTO " ++ name ++
     " (" ++ c_str (columns ++ ") VALUES (" ++ placeholders ++ ")"))
  = (wrc, wdb1, wst) ->
  sqlite3_step wdb1 (Windows.Insert_bind wst wdata) = (wr, wdb2, wst2) ->
  sqlite3_prepare_v2 db ("INSERT INTO " ++ name ++ " DEFAULT VALUES")
  = (lrc, ldb1, lst) ->
  sqlite3_step ldb1 lst = (lr, ldb2, lst2) ->
  Windows.GetPrefixedTableName t s = name /\
  Linux.GetPrefixedTableName t s = name /\
  Windows.HandleMethodCall fuel
    (Windows.mkPlugin (Some (Windows.mkDatabaseManager path (Some db))))
    "insert" (Windows.EvMap wa)
  = Windows_insert_reply
      (if wrc =? SQLITE_OK
       then (if wr =? SQLITE_DONE
             then sqlite3_last_insert_rowid (sqlite3_finalize wdb2 wst2)
             else -1,
             Windows.mkDatabaseManager path
               (Some (sqlite3_finalize wdb2 wst2)))
       else (-1, Windows.mkDatabaseManager path (Some wdb1))) /\
  Linux.handle_method_call fuel
    (Linux.mkPlugin (Some (Linux.mkDatabaseManager path (Some db))))
    "insert" (Linux.FvMap la)
  = Linux_insert_reply
      (if lrc =? SQLITE_OK
       then (if lr =? SQLITE_DONE
             then sqlite3_last_insert_rowid (sqlite3_finalize ldb2 lst2)
             else -1,
             Linux.mkDatabaseManager path
               (Some (sqlite3_finalize ldb2 lst2)))
       else (-1, Linux.mkDatabaseManager path (Some ldb1))).
Proof.
  intros s name columns placeholders Hnt Hns Hwt Hwd Hws Hlt Hld Hls
         Hwp Hwstep Hlp Hlstep.
  assert (Hname : has_NUL name = false).
  { unfold name. rewrite !has_NUL_app, Hns, Hnt. reflexivity. }
  split; [reflexivity|]. split; [reflexivity|]. split.
  - apply (Windows_insert_outcome fuel path db wa t wdata space
             wrc wdb1 wst wr wdb2 wst2 Hwt Hwd Hws); [|exact Hwstep].
    rewrite Windows_Insert_sql_any. fold (space_str space) in s.
    fold s. fold name. fold columns. fold placeholders.
    rewrite (c_str_app_no_NUL "INSERT INTO " _ eq_refl).
    rewrite (c_str_app_no_NUL name _ Hname).
    rewrite (c_str_app_no_NUL " (" _ eq_refl).
    exact Hwp.
  - apply (Linux_insert_outcome fuel path db la t ldata space
             lrc ldb1 lst lr ldb2 lst2 Hlt Hld Hls); [|exact Hlstep].
    unfold Linux.Insert_sql, Linux.GetPrefixedTableName.
    fold (space_str space) in s. fold s.
    rewrite (c_str_no_NUL t Hnt), (c_str_no_NUL s Hns). fold name.
    rewrite (c_str_app_no_NUL "INSERT INTO " _ eq_refl).
    rewrite (c_str_app_no_NUL name _ Hname).
    exact Hlp.
Qed.

End InsertNames.

(** C5 at the empty table name and the empty space, on the stand-in
    engine: the statement for the table [_] is executed and the reply is
    the row id 1. *)
Lemma insert_runs_for_any_names_witness :
  let wa := Toy.windows_insert_args "" (Some "") in
  let la := Toy.linux_insert_args "" (Some "") in
  let wtext := "INSERT INTO _ (name, qty) VALUES (?, ?)" in
  let wbound := [(1, Toy.BText "a"); (2, Toy.BInt 3)] in
  let ltext := "INSERT INTO _ DEFAULT VALUES" in
  let after text bound := Toy.mkDb (Toy.table Toy.items) 1 1 [(text, bound)] in
  Windows.HandleMethodCall 1 (Toy.windows_plugin Toy.items) "insert"
    (Windows.EvMap wa)
  = Some (Windows.Success (Some (Windows.EvInt64 1)),
          Toy.windows_plugin (after wtext wbound)) /\
  Windows_is_InvalidArgument (Windows.Success (Some (Windows.EvInt64 1)))
  = false /\
  Linux.handle_method_call 1 (Toy.linux_plugin Toy.items) "insert"
    (Linux.FvMap la)
  = Linux.Returns
      (Linux.Success (Some (Linux.FvInt 1)),
       Toy.linux_plugin (after ltext [])) /\
  Linux_is_InvalidArgument (Linux.Success (Some (Linux.FvInt 1))) = false.
Proof.
  intros wa la wtext wbound ltext after.
  exact (insert_runs_for_any_names (E := Toy.engine) 1 "app.db" Toy.items
           wa la "" Toy.windows_record
           [(Linux.FvString "name", Linux.FvString "a");
            (Linux.FvString "qty", Linux.FvInt 3)]
           (Some "")
           SQLITE_OK Toy.items (Toy.mkStmt wtext [] [] [])
           SQLITE_DONE (after wtext wbound) (Toy.mkStmt wtext wbound [] [])
           SQLITE_OK Toy.items (Toy.mkStmt ltext [] [] [])
           SQLITE_DONE (after ltext []) (Toy.mkStmt ltext [] [] [])
           eq_refl eq_refl eq_refl eq_refl eq_refl eq_refl
           eq_refl eq_refl eq_refl eq_refl).
Defined.

(** C6 fails for a name with a NUL character: the text handed to the
    engine ends there.  For the table [items] and the space
    [log DEFAULT VALUES] followed by a NUL, the prefixed name is that
    space, an underscore and [items], but the Windows [insert] executes
    [INSERT INTO log DEFAULT VALUES], a statement on the table [log],
    and answers its row id; the Linux [insert] reads the space up to the
    NUL. *)
Lemma NUL_ends_the_statement_text :
  let space := "log DEFAULT VALUES" ++ String zero "" in
  let after text bound := Toy.mkDb (Toy.table Toy.items) 1 1 [(text, bound)] in
  Windows.GetPrefixedTableName "items" space
  = "log DEFAULT VALUES" ++ String zero "_items" /\
  Windows.HandleMethodCall 1 (Toy.windows_plugin Toy.items) "insert"
    (Windows.EvMap (Toy.windows_insert_args "items" (Some space)))
  = Some (Windows.Success (Some (Windows.EvInt64 1)),
          Toy.windows_plugin
            (after "INSERT INTO log DEFAULT VALUES"
                   [(1, Toy.BText "a"); (2, Toy.BInt 3)])) /\
  String.prefix ("INSERT INTO " ++ space ++ "_items")
    "INSERT INTO log DEFAULT VALUES" = false /\
  Linux.handle_method_call 1 (Toy.linux_plugin Toy.items) "insert"
    (Linux.FvMap (Toy.linux_insert_args "items" (Some space)))
  = Linux.Returns
      (Linux.Success (Some (Linux.FvInt 1)),
       Toy.linux_plugin
         (after "INSERT INTO log DEFAULT VALUES_items DEFAULT VALUES" [])) /\
  String.prefix ("INSERT INTO " ++ space ++ "_items")
    "INSERT INTO log DEFAULT VALUES_items DEFAULT VALUES" = false.
Proof. repeat split. Qed.

(** C6 on the stand-in engine: [insert("items", {name: "a", qty: 3})]
    without a space executes a statement on [default_items]. *)
Lemma insert_targets_space_table_without_NUL_witness :
  let wa := Toy.windows_insert_args "items" None in
  let la := Toy.linux_insert_args "items" None in
  let wtext := "INSERT INTO default_items (name, qty) VALUES (?, ?)" in
  let wbound := [(1, Toy.BText "a"); (2, Toy.BInt 3)] in
  let ltext := "INSERT INTO default_items DEFAULT VALUES" in
  let after text bound := Toy.mkDb (Toy.table Toy.items) 1 1 [(text, bound)] in
  Windows.GetPrefixedTableName "items" "default" = "default_items" /\
  Linux.GetPrefixedTableName "items" "default" = "default_items" /\
  Windows.HandleMethodCall 1 (Toy.windows_plugin Toy.items) "insert"
    (Windows.EvMap wa)
  = Some (Windows.Success (Some (Windows.EvInt64 1)),
          Toy.windows_plugin (after wtext wbound)) /\
  Linux.handle_method_call 1 (Toy.linux_plugin Toy.items) "insert"
    (Linux.FvMap la)
  = Linux.Returns
      (Linux.Success (Some (Linux.FvInt 1)),
       Toy.linux_plugin (after ltext [])).
Proof.
  intros wa la wtext wbound ltext after.
  exact (insert_targets_space_table_without_NUL (E := Toy.engine) 1 "app.db"
           Toy.items wa la "items" Toy.windows_record
           [(Linux.FvString "name", Linux.FvString "a");
            (Linux.FvString "qty", Linux.FvInt 3)]
           None
           SQLITE_OK Toy.items (Toy.mkStmt wtext [] [] [])
           SQLITE_DONE (after wtext wbound) (Toy.mkStmt wtext wbound [] [])
           SQLITE_OK Toy.items (Toy.mkStmt ltext [] [] [])
           SQLITE_DONE (after ltext []) (Toy.mkStmt ltext [] [] [])
           eq_refl eq_refl eq_refl eq_refl eq_refl eq_refl eq_refl eq_refl
           eq_refl eq_refl eq_refl eq_refl).
Defined.

(** ** Further properties of [Query] *)
Section RowEntries.
Variables (V M : Type).
Variable find : M -> string -> option V.
Variable assign : M -> string -> V -> M.
Variable empty : M.
Hypothesis find_empty : forall k, find empty k = None.
Hypothesis find_same : forall m k v, find (assign m k v) k = Some v.
Hypothesis find_other :
  forall m k k' v, k' <> k -> find (assign m k' v) k = find m k.
Variables (name : Z -> string) (value : Z -> V).

(** An entry found after the loop stems from the last index of its name. *)
Lemma fold_lookup_stems (l : list Z) (k : string) (v : V) :
  find (fold_left (fun row j => assign row (name j) (value j)) l empty) k
  = Some v ->
  exists l1 i l2,
    l = (l1 ++ i :: l2)%list /\ name i = k /\ value i = v /\
    forall j, In j l2 -> name j <> k.
Proof.
  induction l as [|j l IH] using rev_ind.
  - cbn. rewrite find_empty. discriminate.
  - rewrite fold_left_app. cbn.
    destruct (string_dec (name j) k) as [Hjk|Hjk].
    + rewrite Hjk, find_same. intros [= <-].
      exists l, j, []. repeat split; auto; intros ? [].
    + rewrite find_other by assumption. intros Hf.
      destruct (IH Hf) as [l1 [i [l2 [-> [Hi [Hv Hl2]]]]]].
      exists l1, i, (l2 ++ [j])%list. repeat split; auto.
      * now rewrite <- app_assoc.
      * intros j' Hj'. apply in_app_or in Hj'.
        destruct Hj' as [Hj'|[<-|[]]]; auto.
Qed.

End RowEntries.

Lemma seq_split_after (l1 : list nat) :
  forall a n x l2,
    seq a n = (l1 ++ x :: l2)%list ->
    (a <= x < a + n)%nat /\
    forall y, (x < y < a + n)%nat -> In y l2.
Proof.
  induction l1 as [|z l1 IH]; intros a n x l2 H.
  - destruct n as [|n]; [discriminate|]. cbn in H. injection H as <- <-.
    split; [lia|]. intros y Hy. apply in_seq. lia.
  - destruct n as [|n]; [discriminate|]. cbn in H. injection H as _ H.
    destruct (IH _ _ _ _ H) as [Hx Hy]. split; [lia|].
    intros y Hy'. apply Hy. lia.
Qed.

Lemma column_indices_split_after (n i : Z) (l1 l2 : list Z) :
  column_indices n = (l1 ++ i :: l2)%list ->
  0 <= i < n /\ forall j, i < j < n -> In j l2.
Proof.
  unfold column_indices. intros H.
  apply map_eq_app in H. destruct H as [k1 [k2 [Hs [H1 H2]]]].
  destruct k2 as [|x k2]; [discriminate|]. cbn in H2. injection H2 as Hx H2.
  destruct (seq_split_after _ _ _ _ _ Hs) as [Hr Hafter].
  subst i l2. split; [lia|].
  intros j Hj. apply in_map_iff. exists (Z.to_nat j). split; [lia|].
  apply Hafter. lia.
Qed.

Section QueryMore.
Context {E : Sqlite3}.

Lemma Windows_Query_loop_sound fuel :
  forall db st acc res db' st',
    Windows.Query_loop fuel db st acc = Some (res, db', st') ->
    exists rows,
      Emits db st rows db' st' /\ (List.length rows < fuel)%nat /\
      res = (acc ++ map (fun s => Windows.EvMap (Windows.Query_row s)) rows)%list.
Proof.
  induction fuel as [|fuel IH]; intros db st acc res db' st' H;
    [discriminate|].
  cbn in H. destruct (sqlite3_step db st) as [[rc db1] st1] eqn:Hstep.
  destruct (rc =? SQLITE_ROW) eqn:Hrc.
  - apply Z.eqb_eq in Hrc. subst rc.
    destruct (IH _ _ _ _ _ _ H) as [rows [He [Hl ->]]].
    exists (st1 :: rows). repeat split.
    + eapply Emits_row; eassumption.
    + cbn. lia.
    + now rewrite <- app_assoc.
  - apply Z.eqb_neq in Hrc. injection H as <- <- <-.
    exists []. repeat split.
    + eapply Emits_done; eassumption.
    + cbn. lia.
    + now rewrite app_nil_r.
Qed.

(** X5: On Windows, when [Query] returns for a text that prepared, the
    cursor has answered something other than [SQLITE_ROW], whatever that
    answer is, and the list returned holds one map for each row emitted
    before that answer, in order, and nothing else; the statement is then
    finalized.  A step that fails in the middle of a cursor so gives the
    rows read so far as a regular result. *)
Theorem Windows_Query_returns_the_emitted_rows fuel db sql db1 st path
  results m' :
  sqlite3_prepare_v2 db (c_str sql) = (SQLITE_OK, db1, st) ->
  Windows.Query fuel (Windows.mkDatabaseManager path (Some db)) sql
  = Some (results, m') ->
  exists rows db2 st2,
    Emits db1 st rows db2 st2 /\
    (List.length rows < fuel)%nat /\
    results = map (fun s => Windows.EvMap (Windows.Query_row s)) rows /\
    m' = Windows.mkDatabaseManager path (Some (sqlite3_finalize db2 st2)).
Proof.
  intros Hprep HW.
  unfold Windows.Query in HW. cbn [Windows.database_] in HW.
  rewrite Hprep in HW. cbn [Z.eqb SQLITE_OK negb] in HW.
  destruct (Windows.Query_loop fuel db1 st []) as [[[wr wdb] wst]|] eqn:HWl;
    [|discriminate].
  injection HW as <- <-.
  destruct (Windows_Query_loop_sound _ _ _ _ _ _ _ HWl) as [rows [He [Hl ->]]].
  exists rows, wdb, wst. cbn. auto.
Qed.

(** X6: A row of the Windows [Query] holds an entry under a key exactly
    when the key is the name of a column below the column count, and the
    value of the entry is then the typed value of the last column of that
    name. *)
Theorem Windows_Query_row_entries (st : sqlite3_stmt) (key : string)
  (v : Windows.EncodableValue) :
  Windows.EncodableMap_find (Windows.Query_row st) key = Some v <->
  exists i,
    0 <= i < sqlite3_column_count st /\
    sqlite3_column_name st i = key /\
    last_of_its_name st i /\
    v = Windows.Query_value st i.
Proof.
  split.
  - intros H. unfold Windows.Query_row in H.
    apply (fold_lookup_stems _ _ Windows.EncodableMap_find
             Windows.EncodableMap_assign [] (fun _ => eq_refl)
             Windows_find_assign_same Windows_find_assign_other) in H.
    destruct H as [l1 [i [l2 [Hl [Hn [Hv Hl2]]]]]].
    destruct (column_indices_split_after _ _ _ _ Hl) as [Hi Hafter].
    exists i. repeat split; auto; try lia.
    intros j Hj. rewrite Hn. apply Hl2, Hafter, Hj.
  - intros [i [Hi [<- [Hlast ->]]]]. now apply Windows_Query_row_lookup.
Qed.

End QueryMore.

(** The query of the concrete scenario on the stand-in engine returns the
    one row the cursor emits. *)
Lemma Windows_Query_returns_the_emitted_rows_witness :
  let sql := "SELECT * FROM default_items" in
  let st0 := Toy.mkStmt sql [] (Toy.table Toy.items) [] in
  exists rows db2 st2,
    Emits (E := Toy.engine) Toy.items st0 rows db2 st2 /\
    (List.length rows < 2)%nat /\
    [Windows.EvMap [(Windows.EvString "name", Windows.EvString "a");
                    (Windows.EvString "qty", Windows.EvInt64 3)]]
    = map (fun s => Windows.EvMap (Windows.Query_row s)) rows /\
    Toy.windows_manager Toy.items
    = Windows.mkDatabaseManager "app.db"
        (Some (sqlite3_finalize (Sqlite3 := Toy.engine) db2 st2)).
Proof.
  intros sql st0.
  exact (Windows_Query_returns_the_emitted_rows (E := Toy.engine) 2
           Toy.items sql Toy.items st0 "app.db" _ _ eq_refl eq_refl).
Defined.

Section Platforms.
Context {E : Sqlite3}.

Lemma c_str_cut (a b : string) : c_str (a ++ String zero b) = c_str a.
Proof.
  induction a as [|c a IH]; cbn; [reflexivity|].
  destruct (Ascii.eqb c zero); [reflexivity|now rewrite IH].
Qed.

(** X8: Statement texts and text values end at their first NUL character:
    [Query] and [Update] do with a text followed by a NUL and anything
    what they do with the text alone, and the Windows [Insert] binds a
    string value followed by a NUL and anything as the string alone. *)
Theorem texts_end_at_the_first_NUL (sql rest : string) :
  (forall fuel (m : Windows.DatabaseManager) a,
      Windows.Query fuel m (sql ++ String zero rest) = Windows.Query fuel m sql /\
      Windows.Update m (sql ++ String zero rest) a = Windows.Update m sql a) /\
  (forall fuel (m : Linux.DatabaseManager) a,
      Linux.Query fuel m (sql ++ String zero rest) = Linux.Query fuel m sql /\
      Linux.Update m (sql ++ String zero rest) a = Linux.Update m sql a) /\
  (forall st index,
      Windows.Insert_bind_value st index
        (Windows.EvString (sql ++ String zero rest))
      = Windows.Insert_bind_value st index (Windows.EvString sql)).
Proof.
  repeat apply conj; intros;
    unfold Windows.Query, Windows.Update, Linux.Query, Linux.Update,
           Windows.Insert_bind_value;
    cbn [Windows.get_if_string]; now rewrite c_str_cut.
Qed.

Lemma has_underscore_head c s :
  has_underscore (String c s) = false ->
  c <> "_"%char /\ has_underscore s = false.
Proof.
  cbn. intros H. apply orb_false_iff in H. destruct H as [Hc Hs].
  split; [|assumption]. now apply Ascii.eqb_neq.
Qed.

(** X9: The prefixed name does not keep spaces apart: the table [c] of the
    space [a_b] and the table [b_c] of the space [a] have one prefixed
    name, and [Insert] into the one is [Insert] into the other.  On both
    platforms. *)
Theorem prefixed_names_collide (a b c : string) :
  Windows.GetPrefixedTableName c (a ++ "_" ++ b)
  = Windows.GetPrefixedTableName (b ++ "_" ++ c) a /\
  Linux.GetPrefixedTableName c (a ++ "_" ++ b)
  = Linux.GetPrefixedTableName (b ++ "_" ++ c) a /\
  (forall (m : Windows.DatabaseManager) data,
      Windows.Insert m c data (a ++ "_" ++ b)
      = Windows.Insert m (b ++ "_" ++ c) data a) /\
  (forall (m : Linux.DatabaseManager) data,
      Linux.Insert m c data (a ++ "_" ++ b)
      = Linux.Insert m (b ++ "_" ++ c) data a).
Proof.
  assert (HW : Windows.GetPrefixedTableName c (a ++ "_" ++ b)
               = Windows.GetPrefixedTableName (b ++ "_" ++ c) a).
  { unfold Windows.GetPrefixedTableName.
    now rewrite !string_append_assoc. }
  repeat apply conj; try exact HW.
  - intros m data. unfold Windows.Insert, Windows.Insert_sql.
    now rewrite HW.
  - intros m data. unfold Linux.Insert, Linux.Insert_sql.
    change Linux.GetPrefixedTableName with Windows.GetPrefixedTableName.
    now rewrite HW.
Qed.

(** X10: Among spaces without an underscore the prefixed name tells the space
    and the table: two such spaces with tables of one prefixed name are
    the same space with the same table.  On both platforms. *)
Theorem prefixed_name_injective (s s' t t' : string) :
  has_underscore s = false ->
  has_underscore s' = false ->
  Windows.GetPrefixedTableName t s = Windows.GetPrefixedTableName t' s' \/
  Linux.GetPrefixedTableName t s = Linux.GetPrefixedTableName t' s' ->
  s = s' /\ t = t'.
Proof.
  intros Hs Hs' H.
  assert (Heq : s ++ "_" ++ t = s' ++ "_" ++ t') by (destruct H; exact H).
  clear H. revert s' Hs' Heq.
  induction s as [|c s IH]; intros [|c' s'] Hs' Heq.
  - cbn in Heq. injection Heq as ->. auto.
  - cbn in Heq. injection Heq as <- _.
    apply has_underscore_head in Hs'. destruct Hs' as [Hc _]. congruence.
  - cbn in Heq. injection Heq as -> _.
    apply has_underscore_head in Hs. destruct Hs as [Hc _]. congruence.
  - cbn in Heq. injection Heq as <- Heq.
    apply has_underscore_head in Hs, Hs'.
    destruct (IH (proj2 Hs) s' (proj2 Hs') Heq) as [-> ->]. auto.
Qed.

End Platforms.

(** Two spaces without underscore, on the stand-in engine's tables. *)
Lemma prefixed_name_injective_witness :
  (has_underscore "default" = false /\ has_underscore "default" = false /\
   (Windows.GetPrefixedTableName "items" "default"
    = Windows.GetPrefixedTableName "items" "default" \/
    Linux.GetPrefixedTableName "items" "default"
    = Linux.GetPrefixedTableName "items" "default")) /\
  "default" = "default" /\ "items" = "items".
Proof.
  split; [repeat split; left; reflexivity|].
  exact (prefixed_name_injective "default" "default" "items" "items"
           eq_refl eq_refl (or_introl eq_refl)).
Defined.

(** ** Further properties of the handlers *)
Section Handlers.
Context {E : Sqlite3}.

(** X11: A method name that the Windows handler does not test for is answered
    NotImplemented by both handlers, with the plugin unchanged; [update]
    and [delete] are such names, so [Update] and [Delete] cannot be
    reached through the channel.  The Linux handler also answers
    NotImplemented to [saveSecureKey]. *)
Theorem unhandled_methods_NotImplemented fuel
  (ws : Windows.LocalStorageCacheWindowsPlugin) wargs
  (ls : Linux.LocalStorageCacheLinuxPlugin) largs (method : string) :
  ~ In method Windows_methods ->
  Windows.HandleMethodCall fuel ws method wargs
  = Some (Windows.NotImplemented, ws) /\
  Linux.handle_method_call fuel ls method largs
  = Linux.Returns (Linux.NotImplemented, ls) /\
  Linux.handle_method_call fuel ls "saveSecureKey" largs
  = Linux.Returns (Linux.NotImplemented, ls).
Proof.
  intros Hnot.
  assert (Hne : forall x, In x Windows_methods -> String.eqb method x = false).
  { intros x Hx. apply String.eqb_neq. intros ->. contradiction. }
  unfold Windows.HandleMethodCall, Linux.handle_method_call.
  rewrite !Hne by (cbn; auto 10). cbn. auto.
Qed.

(** X12: The two stubs: [isBiometricAvailable] answers false in every state and
    for every argument, on both platforms; the Windows [saveSecureKey]
    answers success exactly when its arguments are a map with an entry
    under [key] and one under [value], of whatever types, and INVALID_ARGS
    otherwise.  None of them changes the plugin: nothing is stored. *)
Theorem stubs_store_nothing fuel
  (ws : Windows.LocalStorageCacheWindowsPlugin) wargs
  (ls : Linux.LocalStorageCacheLinuxPlugin) largs :
  Windows.HandleMethodCall fuel ws "isBiometricAvailable" wargs
  = Some (Windows.Success (Some (Windows.EvBool false)), ws) /\
  Linux.handle_method_call fuel ls "isBiometricAvailable" largs
  = Linux.Returns (Linux.Success (Some (Linux.FvBool false)), ls) /\
  exists res,
    Windows.HandleMethodCall fuel ws "saveSecureKey" wargs = Some (res, ws) /\
    (res = Windows.Success None \/ Windows_is_InvalidArgument res = true) /\
    (res = Windows.Success None <->
     exists a k v,
       wargs = Windows.EvMap a /\
       Windows.EncodableMap_find a "key" = Some k /\
       Windows.EncodableMap_find a "value" = Some v).
Proof.
  split; [reflexivity|]. split; [reflexivity|].
  unfold Windows.HandleMethodCall. cbn -[Windows.EncodableMap_find].
  destruct wargs as [| | | | | | |a];
    try (eexists; split; [reflexivity|]; split; [now right|];
         split; [discriminate|intros [a [k [v [H _]]]]; discriminate]).
  cbn -[Windows.EncodableMap_find].
  destruct (Windows.EncodableMap_find a "key") as [k|] eqn:Hk;
    [destruct (Windows.EncodableMap_find a "value") as [v|] eqn:Hv|];
    eexists; (split; [reflexivity|]).
  - split; [now left|]. split; [|reflexivity].
    intros _. exists a, k, v. auto.
  - split; [now right|]. split; [discriminate|].
    intros [a' [k' [v' [[= <-] [_ Hv']]]]]. congruence.
  - split; [now right|]. split; [discriminate|].
    intros [a' [k' [v' [[= <-] [Hk' _]]]]]. congruence.
Qed.

(** X13: Only [close] empties the manager pointer: a call of any other method
    that returns leaves a manager in place when there was one.  On both
    platforms. *)
Theorem manager_stays_until_close fuel (method : string)
  (ws ws' : Windows.LocalStorageCacheWindowsPlugin) wargs wres
  (ls ls' : Linux.LocalStorageCacheLinuxPlugin) largs lres :
  method <> "close" ->
  Windows.database_manager_ ws <> None ->
  Linux.database_manager ls <> None ->
  Windows.HandleMethodCall fuel ws method wargs = Some (wres, ws') ->
  Linux.handle_method_call fuel ls method largs = Linux.Returns (lres, ls') ->
  Windows.database_manager_ ws' <> None /\
  Linux.database_manager ls' <> None.
Proof.
  intros Hm Hw Hl HW HL.
  apply String.eqb_neq in Hm.
  destruct ws as [[wm|]]; [|contradiction].
  destruct ls as [[lm|]]; [|contradiction].
  unfold Windows.HandleMethodCall in HW.
  unfold Linux.handle_method_call in HL.
  rewrite Hm in HW, HL. cbn [Windows.database_manager_] in HW.
  cbn [Linux.database_manager] in HL.
  split.
  - repeat match type of HW with
           | context [if ?b then _ else _] => destruct b eqn:?
           | context [match ?x with _ => _ end] => destruct x eqn:?
           end; inversion HW; subst; cbn; discriminate.
  - unfold Linux.bind in HL.
    repeat match type of HL with
           | context [if ?b then _ else _] => destruct b eqn:?
           | context [match ?x with _ => _ end] => destruct x eqn:?
           end; inversion HL; subst; cbn; discriminate.
Qed.

(** X14: The Windows [insert] call with a manager in place answers
    INVALID_ARGS exactly when its arguments are not a map with a string
    under [tableName] and a map under [data]; it then leaves the plugin
    unchanged, and [Insert] is not called. *)
Theorem Windows_insert_argument_errors fuel (m : Windows.DatabaseManager)
  (args : Windows.EncodableValue) :
  exists res self',
    Windows.HandleMethodCall fuel (Windows.mkPlugin (Some m)) "insert" args
    = Some (res, self') /\
    (Windows_is_InvalidArgument res = true <->
     Windows_insert_arguments args = None) /\
    (Windows_is_InvalidArgument res = true ->
     self' = Windows.mkPlugin (Some m)).
Proof.
  destruct (Windows_insert_arguments args) as [[t d]|] eqn:Hargs.
  - unfold Windows_insert_arguments in Hargs.
    destruct args as [| | | | | | |a]; try discriminate.
    cbn [Windows.get_if_map] in Hargs.
    destruct (Windows.EncodableMap_find a "tableName") as [[| | | | |t'| |]|]
      eqn:Ht; try discriminate.
    destruct (Windows.EncodableMap_find a "data") as [[| | | | | | |d']|]
      eqn:Hd; try discriminate.
    injection Hargs as -> ->.
    rewrite (Windows_insert_call fuel m a t d Ht Hd).
    destruct (Windows_insert_reply_cases
                (Windows.Insert m t d
                   match Windows.EncodableMap_find a "space" with
                   | Some (Windows.EvString s) => s
                   | _ => "default"
                   end)) as [res [self' [Hr [Hinv _]]]].
    exists res, self'. split; [assumption|].
    rewrite Hinv. split; [split|]; discriminate.
  - unfold Windows_insert_arguments in Hargs.
    unfold Windows.HandleMethodCall.
    cbn -[Windows.Insert Windows.EncodableMap_find].
    destruct args as [| | | | | | |a];
      try (eexists _, _; split; [reflexivity|]; cbn; now auto).
    cbn [Windows.get_if_map] in Hargs |- *.
    destruct (Windows.EncodableMap_find a "tableName") as [tv|];
      [|eexists _, _; split; [reflexivity|]; cbn; now auto].
    destruct (Windows.EncodableMap_find a "data") as [dv|];
      [|eexists _, _; split; [reflexivity|]; cbn; now auto].
    destruct tv; try (eexists _, _; split; [reflexivity|]; cbn; now auto);
      destruct dv; try discriminate;
      eexists _, _; (split; [reflexivity|]); cbn; now auto.
Qed.

End Handlers.

(** [update] on the stand-in engine's plugins. *)
Lemma unhandled_methods_NotImplemented_witness :
  let ws := Toy.windows_plugin Toy.items in
  let ls := Toy.linux_plugin Toy.items in
  ~ In "update" Windows_methods /\
  Windows.HandleMethodCall 1 ws "update" Windows.EvNull
  = Some (Windows.NotImplemented, ws) /\
  Linux.handle_method_call 1 ls "update" Linux.FvNull
  = Linux.Returns (Linux.NotImplemented, ls) /\
  Linux.handle_method_call 1 ls "saveSecureKey" Linux.FvNull
  = Linux.Returns (Linux.NotImplemented, ls).
Proof.
  intros ws ls.
  assert (H : ~ In "update" Windows_methods).
  { cbn. intros [H|[H|[H|[H|[H|[H|[]]]]]]]; discriminate. }
  split; [exact H|].
  exact (unhandled_methods_NotImplemented (E := Toy.engine) 1 ws
           Windows.EvNull ls Linux.FvNull "update" H).
Defined.

(** An [insert] on open plugins of the stand-in engine. *)
Lemma manager_stays_until_close_witness :
  let ws := Toy.windows_plugin Toy.items in
  let ls := Toy.linux_plugin Toy.items in
  let after (text : string) (bound : list (Z * Toy.binding)) :=
    Toy.mkDb (Toy.table Toy.items) 1 1 [(text, bound)] in
  ("insert" <> "close" /\
   Windows.database_manager_ ws <> None /\
   Linux.database_manager ls <> None) /\
  Windows.database_manager_
    (Toy.windows_plugin
       (after "INSERT INTO default_items (name, qty) VALUES (?, ?)"
              [(1, Toy.BText "a"); (2, Toy.BInt 3)])) <> None /\
  Linux.database_manager
    (Toy.linux_plugin (after "INSERT INTO default_items DEFAULT VALUES" []))
  <> None.
Proof.
  intros ws ls after.
  assert (H1 : "insert" <> "close") by discriminate.
  assert (H2 : Windows.database_manager_ ws <> None) by discriminate.
  assert (H3 : Linux.database_manager ls <> None) by discriminate.
  split; [auto|].
  exact (manager_stays_until_close (E := Toy.engine) 1 "insert"
           ws _ (Windows.EvMap (Toy.windows_insert_args "items" None)) _
           ls _ (Linux.FvMap (Toy.linux_insert_args "items" None)) _
           H1 H2 H3 eq_refl eq_refl).
Defined.

Section HandlersMore.
Context {E : Sqlite3}.

(** X15: A [query] call with a manager in place that returns has one of two
    replies: success with a list, when the arguments carry a string under
    [sql]; INVALID_ARGS with the plugin unchanged, when they do not.  The
    call has no reply for a failure of the engine.  On both platforms. *)
Theorem query_replies fuel
  (wm : Windows.DatabaseManager) wargs wres ws'
  (lm : Linux.DatabaseManager) largs lres ls' :
  Windows.HandleMethodCall fuel (Windows.mkPlugin (Some wm)) "query" wargs
  = Some (wres, ws') ->
  Linux.handle_method_call fuel (Linux.mkPlugin (Some lm)) "query" largs
  = Linux.Returns (lres, ls') ->
  ((exists rows sql,
       wres = Windows.Success (Some (Windows.EvList rows)) /\
       Windows_string_argument wargs "sql" = Some sql) \/
   (Windows_is_InvalidArgument wres = true /\
    ws' = Windows.mkPlugin (Some wm) /\
    Windows_string_argument wargs "sql" = None)) /\
  ((exists rows v,
       lres = Linux.Success (Some (Linux.FvList rows)) /\
       Linux.fl_value_lookup_string largs "sql" = Some v) \/
   (Linux_is_InvalidArgument lres = true /\
    ls' = Linux.mkPlugin (Some lm) /\
    Linux.fl_value_lookup_string largs "sql" = None)).
Proof.
  intros HW HL. split.
  - unfold Windows.HandleMethodCall in HW.
    cbn -[Windows.Query Windows.EncodableMap_find] in HW.
    unfold Windows_string_argument.
    destruct (Windows.get_if_map wargs) as [a|];
      [|injection HW as <- <-; right; auto].
    destruct (Windows.EncodableMap_find a "sql") as [v|];
      [|injection HW as <- <-; right; auto].
    destruct (Windows.get_if_string v) as [sql|];
      [|injection HW as <- <-; right; auto].
    destruct (Windows.Query fuel wm sql) as [[rows m']|]; [|discriminate].
    injection HW as <- <-. left. eauto.
  - unfold Linux.handle_method_call in HL.
    cbn -[Linux.Query Linux.fl_value_lookup_string] in HL.
    destruct (Linux.fl_value_lookup_string largs "sql") as [v|];
      [|injection HL as <- <-; right; auto].
    destruct (Linux.fl_value_get_string v) as [sql|]; [|discriminate].
    unfold Linux.bind in HL.
    destruct (Linux.Query fuel lm (c_str sql)) as [[results m']| | |] eqn:HQ;
      try discriminate.
    injection HL as <- <-.
    apply Linux_Query_returns_list in HQ. destruct HQ as [[rows ->] _].
    left. eauto.
Qed.

(** X16: An [initialize] call whose arguments carry the string [path] under
    [databasePath] sets a new manager for that path in place of whatever
    the plugin held, whether the open succeeds or not; the reply is
    success exactly when [sqlite3_open] answers [SQLITE_OK], INIT_ERROR
    otherwise; the pragma is run on the handle only after a successful
    open, and the handle of a failed open is kept as it is.  On both
    platforms. *)
Theorem initialize_sets_a_manager fuel
  (ws : Windows.LocalStorageCacheWindowsPlugin) wa
  (ls : Linux.LocalStorageCacheLinuxPlugin) la
  (path : string) (rc : Z) (h : option sqlite3) :
  Windows.EncodableMap_find wa "databasePath" = Some (Windows.EvString path) ->
  Linux.lookup_entries la "databasePath" = Some (Linux.FvString path) ->
  sqlite3_open (c_str path) = (rc, h) ->
  let handle :=
    if rc =? SQLITE_OK
    then option_map (fun db => sqlite3_exec db "PRAGMA foreign_keys = ON") h
    else h in
  Windows.HandleMethodCall fuel ws "initialize" (Windows.EvMap wa)
  = Some (if rc =? SQLITE_OK then Windows.Success None
          else Windows.Error "INIT_ERROR" "Failed to initialize database",
          Windows.mkPlugin (Some (Windows.mkDatabaseManager path handle))) /\
  Linux.handle_method_call fuel ls "initialize" (Linux.FvMap la)
  = Linux.Returns
      (if rc =? SQLITE_OK then Linux.Success None
       else Linux.Error "INIT_ERROR" "Failed to initialize database",
       Linux.mkPlugin
         (Some (Linux.mkDatabaseManager (c_str path) handle))).
Proof.
  intros Hw Hl Hopen handle. subst handle. split.
  - unfold Windows.HandleMethodCall.
    cbn -[Windows.EncodableMap_find c_str]. rewrite Hw.
    cbn -[c_str]. unfold Windows.Initialize. cbn -[c_str]. rewrite Hopen.
    destruct (rc =? SQLITE_OK); reflexivity.
  - unfold Linux.handle_method_call.
    cbn -[Linux.lookup_entries c_str]. rewrite Hl.
    cbn -[c_str]. unfold Linux.Initialize. cbn -[c_str].
    rewrite c_str_idempotent, Hopen.
    destruct (rc =? SQLITE_OK); reflexivity.
Qed.

(** X17: An [initialize] call without a usable [databasePath] answers
    INVALID_ARGS and leaves the plugin, and a manager it holds, as it
    was: on Windows when the arguments are not a map with a string under
    [databasePath], on Linux when no entry is found under
    [databasePath]. *)
Theorem initialize_argument_errors fuel
  (ws : Windows.LocalStorageCacheWindowsPlugin) wargs
  (ls : Linux.LocalStorageCacheLinuxPlugin) largs :
  Windows_string_argument wargs "databasePath" = None ->
  Linux.fl_value_lookup_string largs "databasePath" = None ->
  (exists message,
      Windows.HandleMethodCall fuel ws "initialize" wargs
      = Some (Windows.Error "INVALID_ARGS" message, ws)) /\
  Linux.handle_method_call fuel ls "initialize" largs
  = Linux.Returns
      (Linux.Error "INVALID_ARGS" "databasePath is required", ls).
Proof.
  intros Hw Hl. split.
  - unfold Windows_string_argument in Hw. unfold Windows.HandleMethodCall.
    cbn -[Windows.EncodableMap_find].
    destruct (Windows.get_if_map wargs) as [a|]; [|eauto].
    destruct (Windows.EncodableMap_find a "databasePath") as [v|]; [|eauto].
    rewrite Hw. eauto.
  - unfold Linux.handle_method_call.
    cbn -[Linux.fl_value_lookup_string]. now rewrite Hl.
Qed.

(** With a manager in place, whatever its handle, a reply to [insert] or
    to [query] is not NOT_INITIALIZED. *)
Lemma Windows_manager_in_place fuel (m : Windows.DatabaseManager)
  (method : string) args r self' :
  method = "insert" \/ method = "query" ->
  Windows.HandleMethodCall fuel (Windows.mkPlugin (Some m)) method args
  = Some (r, self') ->
  forall message, r <> Windows.Error "NOT_INITIALIZED" message.
Proof.
  intros [-> | ->] H message; unfold Windows.HandleMethodCall in H;
    cbn -[Windows.Insert Windows.Query Windows.EncodableMap_find] in H;
    repeat match type of H with
           | context [match ?x with _ => _ end] => destruct x
           | context [if ?x then _ else _] => destruct x
           end;
    inversion H; subst; discriminate.
Qed.

Lemma Linux_manager_in_place fuel (m : Linux.DatabaseManager)
  (method : string) args r self' :
  method = "insert" \/ method = "query" ->
  Linux.handle_method_call fuel (Linux.mkPlugin (Some m)) method args
  = Linux.Returns (r, self') ->
  forall message, r <> Linux.Error "NOT_INITIALIZED" message.
Proof.
  intros [-> | ->] H message; unfold Linux.handle_method_call in H;
    cbn -[Linux.Insert Linux.Query Linux.fl_value_lookup_string c_str] in H;
    unfold Linux.bind in H;
    repeat match type of H with
           | context [match ?x with _ => _ end] => destruct x
           | context [if ?x then _ else _] => destruct x
           end;
    inversion H; subst; discriminate.
Qed.

(** The Windows [insert] always replies. *)
Lemma Windows_insert_replies fuel
  (self : Windows.LocalStorageCacheWindowsPlugin) args :
  exists r self',
    Windows.HandleMethodCall fuel self "insert" args = Some (r, self').
Proof.
  unfold Windows.HandleMethodCall.
  cbn -[Windows.Insert Windows.EncodableMap_find].
  repeat match goal with
         | |- context [match ?x with _ => _ end] => destruct x
         | |- context [if ?x then _ else _] => destruct x
         end;
    eauto.
Qed.

(** X18: After an [initialize] whose open fails, the plugin is not Closed: the
    reply is INIT_ERROR, but a manager is in place, so that, whatever
    handle the failed open left and whatever the arguments, no reply to
    [insert] or to [query] is NOT_INITIALIZED, and the Windows [insert]
    always replies.  When the failed open left no handle, a [query] with a
    text answers success with the empty list and a well-formed [insert]
    answers INSERT_ERROR.  On both platforms. *)
Theorem failed_initialize_is_not_Closed fuel
  (ws : Windows.LocalStorageCacheWindowsPlugin) wa
  (ls : Linux.LocalStorageCacheLinuxPlugin) la
  (path : string) (rc : Z) (h : option sqlite3) :
  Windows.EncodableMap_find wa "databasePath" = Some (Windows.EvString path) ->
  Linux.lookup_entries la "databasePath" = Some (Linux.FvString path) ->
  sqlite3_open (c_str path) = (rc, h) ->
  rc <> SQLITE_OK ->
  exists ws' ls',
    Windows.HandleMethodCall fuel ws "initialize" (Windows.EvMap wa)
    = Some (Windows.Error "INIT_ERROR" "Failed to initialize database", ws') /\
    Linux.handle_method_call fuel ls "initialize" (Linux.FvMap la)
    = Linux.Returns
        (Linux.Error "INIT_ERROR" "Failed to initialize database", ls') /\
    ~ Windows_Closed ws' /\ ~ Linux_Closed ls' /\
    (forall fuel' (method : string) args r self',
        method = "insert" \/ method = "query" ->
        Windows.HandleMethodCall fuel' ws' method args = Some (r, self') ->
        forall message, r <> Windows.Error "NOT_INITIALIZED" message) /\
    (forall fuel' (method : string) args r self',
        method = "insert" \/ method = "query" ->
        Linux.handle_method_call fuel' ls' method args
        = Linux.Returns (r, self') ->
        forall message, r <> Linux.Error "NOT_INITIALIZED" message) /\
    (forall fuel' args,
        exists r self',
          Windows.HandleMethodCall fuel' ws' "insert" args = Some (r, self') /\
          forall message, r <> Windows.Error "NOT_INITIALIZED" message) /\
    (h = None ->
     (forall fuel' sql,
         Windows.HandleMethodCall fuel' ws' "query"
           (Windows.EvMap [(Windows.EvString "sql", Windows.EvString sql)])
         = Some (Windows.Success (Some (Windows.EvList [])), ws') /\
         Linux.handle_method_call fuel' ls' "query"
           (Linux.FvMap [(Linux.FvString "sql", Linux.FvString sql)])
         = Linux.Returns (Linux.Success (Some (Linux.FvList [])), ls')) /\
     (forall fuel' wa' t d,
         Windows.EncodableMap_find wa' "tableName"
         = Some (Windows.EvString t) ->
         Windows.EncodableMap_find wa' "data" = Some (Windows.EvMap d) ->
         Windows.HandleMethodCall fuel' ws' "insert" (Windows.EvMap wa')
         = Some (Windows.Error "INSERT_ERROR" "Failed to insert data", ws')) /\
     (forall fuel' la' t d space,
         Linux.lookup_entries la' "tableName" = Some (Linux.FvString t) ->
         Linux.lookup_entries la' "data" = Some d ->
         Linux_space_of la' = Some space ->
         Linux.handle_method_call fuel' ls' "insert" (Linux.FvMap la')
         = Linux.Returns
             (Linux.Error "INSERT_ERROR" "Failed to insert data", ls'))).
Proof.
  intros Hw Hl Hopen Hrc. apply Z.eqb_neq in Hrc.
  assert (HW : Windows.HandleMethodCall fuel ws "initialize" (Windows.EvMap wa)
               = Some (Windows.Error "INIT_ERROR"
                         "Failed to initialize database",
                       Windows.mkPlugin
                         (Some (Windows.mkDatabaseManager path h)))).
  { unfold Windows.HandleMethodCall.
    cbn -[Windows.EncodableMap_find c_str]. rewrite Hw.
    cbn -[c_str]. unfold Windows.Initialize. cbn -[c_str].
    now rewrite Hopen, Hrc. }
  assert (HL : Linux.handle_method_call fuel ls "initialize" (Linux.FvMap la)
               = Linux.Returns
                   (Linux.Error "INIT_ERROR" "Failed to initialize database",
                    Linux.mkPlugin
                      (Some (Linux.mkDatabaseManager (c_str path) h)))).
  { unfold Linux.handle_method_call.
    cbn -[Linux.lookup_entries c_str]. rewrite Hl.
    cbn -[c_str]. unfold Linux.Initialize. cbn -[c_str].
    now rewrite c_str_idempotent, Hopen, Hrc. }
  eexists _, _. split; [exact HW|]. split; [exact HL|].
  split; [|split; [|split; [|split; [|split]]]].
  - intros Hc. apply Windows_Closed_no_manager in Hc. discriminate.
  - intros Hc. apply Linux_Closed_no_manager in Hc. discriminate.
  - intros fuel' method args r self'. apply Windows_manager_in_place.
  - intros fuel' method args r self'. apply Linux_manager_in_place.
  - intros fuel' args.
    destruct (Windows_insert_replies fuel'
                (Windows.mkPlugin (Some (Windows.mkDatabaseManager path h)))
                args) as [r [self' Hr]].
    exists r, self'. split; [exact Hr|].
    apply (Windows_manager_in_place fuel'
             (Windows.mkDatabaseManager path h) "insert" args r self');
      [now left|exact Hr].
  - intros ->. repeat apply conj.
    + intros fuel' sql. split; reflexivity.
    + intros fuel' wa' t d Ht Hd.
      rewrite (Windows_insert_call fuel' _ wa' t d Ht Hd). reflexivity.
    + intros fuel' la' t d space Ht Hd Hs.
      rewrite (Linux_insert_call fuel' _ la' t d space Ht Hd Hs).
      reflexivity.
Qed.

End HandlersMore.

Section InsertReplies.
Context {E : Sqlite3}.

(** X19: The reply to [insert] is read off the sign of the row id alone: when
    the statement was prepared and stepped to [SQLITE_DONE] but the
    engine's last row id is negative, the call answers INSERT_ERROR
    although the statement was executed, and the manager holds the
    connection after that execution.  On both platforms. *)
Theorem negative_row_id_is_INSERT_ERROR fuel path db wa la t wdata ldata space
  wdb1 wst wdb2 wst2 ldb1 lst ldb2 lst2 :
  Windows.EncodableMap_find wa "tableName" = Some (Windows.EvString t) ->
  Windows.EncodableMap_find wa "data" = Some (Windows.EvMap wdata) ->
  Windows.EncodableMap_find wa "space" = Some (Windows.EvString space) ->
  Linux.lookup_entries la "tableName" = Some (Linux.FvString t) ->
  Linux.lookup_entries la "data" = Some (Linux.FvMap ldata) ->
  Linux.lookup_entries la "space" = Some (Linux.FvString space) ->
  sqlite3_prepare_v2 db (c_str (Windows.Insert_sql t wdata space))
  = (SQLITE_OK, wdb1, wst) ->
  sqlite3_step wdb1 (Windows.Insert_bind wst wdata)
  = (SQLITE_DONE, wdb2, wst2) ->
  sqlite3_last_insert_rowid (sqlite3_finalize wdb2 wst2) < 0 ->
  sqlite3_prepare_v2 db
    (c_str (Linux.Insert_sql (c_str t) (Linux.FvMap ldata) (c_str space)))
  = (SQLITE_OK, ldb1, lst) ->
  sqlite3_step ldb1 lst = (SQLITE_DONE, ldb2, lst2) ->
  sqlite3_last_insert_rowid (sqlite3_finalize ldb2 lst2) < 0 ->
  Windows.HandleMethodCall fuel
    (Windows.mkPlugin (Some (Windows.mkDatabaseManager path (Some db))))
    "insert" (Windows.EvMap wa)
  = Some (Windows.Error "INSERT_ERROR" "Failed to insert data",
          Windows.mkPlugin
            (Some (Windows.mkDatabaseManager path
                     (Some (sqlite3_finalize wdb2 wst2))))) /\
  Linux.handle_method_call fuel
    (Linux.mkPlugin (Some (Linux.mkDatabaseManager path (Some db))))
    "insert" (Linux.FvMap la)
  = Linux.Returns
      (Linux.Error "INSERT_ERROR" "Failed to insert data",
       Linux.mkPlugin
         (Some (Linux.mkDatabaseManager path
                  (Some (sqlite3_finalize ldb2 lst2))))).
Proof.
  intros Hwt Hwd Hws Hlt Hld Hls Hwp Hwstep Hwneg Hlp Hlstep Hlneg. split.
  - rewrite (Windows_insert_call fuel _ wa t wdata Hwt Hwd), Hws.
    rewrite (proj2 (Windows_Insert_open path db t wdata space
                      SQLITE_OK wdb1 wst Hwp) eq_refl _ _ _ Hwstep).
    unfold Windows_insert_reply. rewrite Z.eqb_refl. cbn [fst snd].
    rewrite Z.geb_leb. apply Z.leb_gt in Hwneg. now rewrite Hwneg.
  - assert (Hs : Linux_space_of la = Some space).
    { unfold Linux_space_of. now rewrite Hls. }
    rewrite (Linux_insert_call fuel _ la t (Linux.FvMap ldata) space
               Hlt Hld Hs).
    rewrite (proj2 (Linux_Insert_open path db (c_str t) (Linux.FvMap ldata)
                      (c_str space) SQLITE_OK ldb1 lst eq_refl Hlp)
                   eq_refl _ _ _ Hlstep).
    unfold Linux_insert_reply. rewrite Z.eqb_refl. cbn [fst snd].
    rewrite Z.geb_leb. apply Z.leb_gt in Hlneg. now rewrite Hlneg.
Qed.

(** X20: A record that is no map: the Windows call answers INVALID_ARGS and
    does not reach [Insert]; the Linux call reaches [Insert], which
    returns [-1] without a call of the engine, and answers INSERT_ERROR.
    Both leave the plugin as it was. *)
Theorem record_that_is_no_map fuel
  (wm : Windows.DatabaseManager) wa wt wd
  (lm : Linux.DatabaseManager) la t ld space :
  Windows.EncodableMap_find wa "tableName" = Some wt ->
  Windows.EncodableMap_find wa "data" = Some wd ->
  Windows.get_if_map wd = None ->
  Linux.lookup_entries la "tableName" = Some (Linux.FvString t) ->
  Linux.lookup_entries la "data" = Some ld ->
  Linux_space_of la = Some space ->
  Linux.is_map ld = false ->
  Windows.HandleMethodCall fuel (Windows.mkPlugin (Some wm)) "insert"
    (Windows.EvMap wa)
  = Some (Windows.Error "INVALID_ARGS" "Invalid argument types",
          Windows.mkPlugin (Some wm)) /\
  (forall t' s', Linux.Insert lm t' ld s' = (-1, lm)) /\
  Linux.handle_method_call fuel (Linux.mkPlugin (Some lm)) "insert"
    (Linux.FvMap la)
  = Linux.Returns (Linux.Error "INSERT_ERROR" "Failed to insert data",
                   Linux.mkPlugin (Some lm)).
Proof.
  intros Hwt Hwd Hwm Hlt Hld Hls Hlm.
  assert (HI : forall t' s', Linux.Insert lm t' ld s' = (-1, lm)).
  { intros t' s'. unfold Linux.Insert. rewrite Hlm.
    destruct (Linux.database_ lm); reflexivity. }
  repeat apply conj.
  - unfold Windows.HandleMethodCall.
    cbn -[Windows.Insert Windows.EncodableMap_find].
    rewrite Hwt, Hwd, Hwm.
    destruct (Windows.get_if_string wt); reflexivity.
  - exact HI.
  - rewrite (Linux_insert_call fuel lm la t ld space Hlt Hld Hls), HI.
    reflexivity.
Qed.

End InsertReplies.

(** The additional properties on the stand-in engine. *)
Lemma query_replies_witness :
  let wargs :=
    Windows.EvMap [(Windows.EvString "sql",
                    Windows.EvString "SELECT * FROM default_items")] in
  let largs :=
    Linux.FvMap [(Linux.FvString "sql",
                  Linux.FvString "SELECT * FROM default_items")] in
  let wres :=
    Windows.Success
      (Some (Windows.EvList
               [Windows.EvMap
                  [(Windows.EvString "name", Windows.EvString "a");
                   (Windows.EvString "qty", Windows.EvInt64 3)]])) in
  let lres := Linux.Success (Some (Linux.FvList [])) in
  ((exists rows sql,
       wres = Windows.Success (Some (Windows.EvList rows)) /\
       Windows_string_argument wargs "sql" = Some sql) \/
   (Windows_is_InvalidArgument wres = true /\
    Toy.windows_plugin Toy.items
    = Windows.mkPlugin (Some (Toy.windows_manager Toy.items)) /\
    Windows_string_argument wargs "sql" = None)) /\
  ((exists rows v,
       lres = Linux.Success (Some (Linux.FvList rows)) /\
       Linux.fl_value_lookup_string largs "sql" = Some v) \/
   (Linux_is_InvalidArgument lres = true /\
    Toy.linux_plugin Toy.empty
    = Linux.mkPlugin (Some (Toy.linux_manager Toy.empty)) /\
    Linux.fl_value_lookup_string largs "sql" = None)).
Proof.
  intros wargs largs wres lres.
  exact (query_replies (E := Toy.engine) 2
           (Toy.windows_manager Toy.items) wargs wres
           (Toy.windows_plugin Toy.items)
           (Toy.linux_manager Toy.empty) largs lres
           (Toy.linux_plugin Toy.empty) eq_refl eq_refl).
Defined.

Lemma initialize_sets_a_manager_witness :
  let wa := [(Windows.EvString "databasePath", Windows.EvString ":memory:")] in
  let la := [(Linux.FvString "databasePath", Linux.FvString ":memory:")] in
  Windows.HandleMethodCall 1 (Toy.windows_plugin Toy.items) "initialize"
    (Windows.EvMap wa)
  = Some (Windows.Success None,
          Windows.mkPlugin (E := Toy.engine)
            (Some (Windows.mkDatabaseManager (E := Toy.engine) ":memory:"
                     (Some Toy.empty)))) /\
  Linux.handle_method_call 1 (Toy.linux_plugin Toy.items) "initialize"
    (Linux.FvMap la)
  = Linux.Returns
      (Linux.Success None,
       Linux.mkPlugin (E := Toy.engine)
         (Some (Linux.mkDatabaseManager (E := Toy.engine) ":memory:"
                  (Some Toy.empty)))).
Proof.
  intros wa la.
  exact (initialize_sets_a_manager (E := Toy.engine) 1
           (Toy.windows_plugin Toy.items) wa (Toy.linux_plugin Toy.items) la
           ":memory:" SQLITE_OK (Some Toy.empty) eq_refl eq_refl eq_refl).
Defined.

Lemma initialize_argument_errors_witness :
  let ws := Toy.windows_plugin Toy.items in
  let ls := Toy.linux_plugin Toy.items in
  (Windows_string_argument Windows.EvNull "databasePath" = None /\
   Linux.fl_value_lookup_string Linux.FvNull "databasePath" = None) /\
  (exists message,
      Windows.HandleMethodCall 1 ws "initialize" Windows.EvNull
      = Some (Windows.Error "INVALID_ARGS" message, ws)) /\
  Linux.handle_method_call 1 ls "initialize" Linux.FvNull
  = Linux.Returns
      (Linux.Error "INVALID_ARGS" "databasePath is required", ls).
Proof.
  intros ws ls. split; [split; reflexivity|].
  exact (initialize_argument_errors (E := Toy.engine) 1 ws Windows.EvNull
           ls Linux.FvNull eq_refl eq_refl).
Defined.

Lemma failed_initialize_is_not_Closed_witness :
  let wa := [(Windows.EvString "databasePath", Windows.EvString "/")] in
  let la := [(Linux.FvString "databasePath", Linux.FvString "/")] in
  exists ws' ls',
    Windows.HandleMethodCall 1 (Windows.new_Plugin (E := Toy.engine))
      "initialize" (Windows.EvMap wa)
    = Some (Windows.Error "INIT_ERROR" "Failed to initialize database", ws') /\
    Linux.handle_method_call 1 (Linux.new_Plugin (E := Toy.engine))
      "initialize" (Linux.FvMap la)
    = Linux.Returns
        (Linux.Error "INIT_ERROR" "Failed to initialize database", ls') /\
    ~ Windows_Closed ws' /\ ~ Linux_Closed ls' /\
    (forall fuel' args,
        exists r self',
          Windows.HandleMethodCall fuel' ws' "insert" args = Some (r, self') /\
          forall message, r <> Windows.Error "NOT_INITIALIZED" message) /\
    (forall fuel' sql,
        Windows.HandleMethodCall fuel' ws' "query"
          (Windows.EvMap [(Windows.EvString "sql", Windows.EvString sql)])
        = Some (Windows.Success (Some (Windows.EvList [])), ws') /\
        Linux.handle_method_call fuel' ls' "query"
          (Linux.FvMap [(Linux.FvString "sql", Linux.FvString sql)])
        = Linux.Returns (Linux.Success (Some (Linux.FvList [])), ls')).
Proof.
  intros wa la.
  destruct (failed_initialize_is_not_Closed (E := Toy.engine) 1
              Windows.new_Plugin wa Linux.new_Plugin la "/" 14 None
              eq_refl eq_refl eq_refl ltac:(discriminate))
    as [ws' [ls' [HW [HL [HWc [HLc [_ [_ [Hins Hnull]]]]]]]]].
  exists ws', ls'. repeat split; try assumption;
    apply (proj1 (Hnull eq_refl)).
Defined.

Lemma negative_row_id_is_INSERT_ERROR_witness :
  let before := Toy.mkDb [] (-5) 0 [] in
  let wtext := "INSERT INTO default_items (name, qty) VALUES (?, ?)" in
  let wbound := [(1, Toy.BText "a"); (2, Toy.BInt 3)] in
  let ltext := "INSERT INTO default_items DEFAULT VALUES" in
  Windows.HandleMethodCall 1 (Toy.windows_plugin before) "insert"
    (Windows.EvMap (Toy.windows_insert_args "items" (Some "default")))
  = Some (Windows.Error "INSERT_ERROR" "Failed to insert data",
          Toy.windows_plugin (Toy.mkDb [] (-4) 1 [(wtext, wbound)])) /\
  Linux.handle_method_call 1 (Toy.linux_plugin before) "insert"
    (Linux.FvMap (Toy.linux_insert_args "items" (Some "default")))
  = Linux.Returns
      (Linux.Error "INSERT_ERROR" "Failed to insert data",
       Toy.linux_plugin (Toy.mkDb [] (-4) 1 [(ltext, [])])).
Proof.
  intros before wtext wbound ltext.
  exact (negative_row_id_is_INSERT_ERROR (E := Toy.engine) 1 "app.db" before
           (Toy.windows_insert_args "items" (Some "default"))
           (Toy.linux_insert_args "items" (Some "default"))
           "items" Toy.windows_record
           [(Linux.FvString "name", Linux.FvString "a");
            (Linux.FvString "qty", Linux.FvInt 3)]
           "default"
           before (Toy.mkStmt wtext [] [] [])
           (Toy.mkDb [] (-4) 1 [(wtext, wbound)])
           (Toy.mkStmt wtext wbound [] [])
           before (Toy.mkStmt ltext [] [] [])
           (Toy.mkDb [] (-4) 1 [(ltext, [])])
           (Toy.mkStmt ltext [] [] [])
           eq_refl eq_refl eq_refl eq_refl eq_refl eq_refl
           eq_refl eq_refl eq_refl eq_refl eq_refl eq_refl).
Defined.

Lemma record_that_is_no_map_witness :
  let wa := [(Windows.EvString "data", Windows.EvString "x");
             (Windows.EvString "tableName", Windows.EvString "items")] in
  let la := [(Linux.FvString "tableName", Linux.FvString "items");
             (Linux.FvString "data", Linux.FvString "x")] in
  Windows.HandleMethodCall 1 (Toy.windows_plugin Toy.items) "insert"
    (Windows.EvMap wa)
  = Some (Windows.Error "INVALID_ARGS" "Invalid argument types",
          Toy.windows_plugin Toy.items) /\
  (forall t' s',
      Linux.Insert (Toy.linux_manager Toy.items) t' (Linux.FvString "x") s'
      = (-1, Toy.linux_manager Toy.items)) /\
  Linux.handle_method_call 1 (Toy.linux_plugin Toy.items) "insert"
    (Linux.FvMap la)
  = Linux.Returns (Linux.Error "INSERT_ERROR" "Failed to insert data",
                   Toy.linux_plugin Toy.items).
Proof.
  intros wa la.
  exact (record_that_is_no_map (E := Toy.engine) 1
           (Toy.windows_manager Toy.items) wa (Windows.EvString "items")
           (Windows.EvString "x")
           (Toy.linux_manager Toy.items) la "items" (Linux.FvString "x")
           "default" eq_refl eq_refl eq_refl eq_refl eq_refl eq_refl eq_refl).
Defined.

Section SpaceFallback.
Context {E : Sqlite3}.

(** X21: On Windows a [space] entry that is no string is treated as if there
    were none: the call runs [Insert] with ["default"] and reports no
    error for the entry. *)
Theorem Windows_space_of_wrong_type fuel (m : Windows.DatabaseManager)
  wa t d v :
  Windows.EncodableMap_find wa "tableName" = Some (Windows.EvString t) ->
  Windows.EncodableMap_find wa "data" = Some (Windows.EvMap d) ->
  Windows.EncodableMap_find wa "space" = Some v ->
  Windows.get_if_string v = None ->
  Windows.HandleMethodCall fuel (Windows.mkPlugin (Some m)) "insert"
    (Windows.EvMap wa)
  = Windows_insert_reply (Windows.Insert m t d "default").
Proof.
  intros Ht Hd Hs Hv.
  rewrite (Windows_insert_call fuel m wa t d Ht Hd), Hs.
  destruct v; try reflexivity. discriminate.
Qed.

End SpaceFallback.

Lemma Windows_space_of_wrong_type_witness :
  let wa := [(Windows.EvString "data", Windows.EvMap Toy.windows_record);
             (Windows.EvString "space", Windows.EvInt32 7);
             (Windows.EvString "tableName", Windows.EvString "items")] in
  Windows.HandleMethodCall 1 (Toy.windows_plugin Toy.items) "insert"
    (Windows.EvMap wa)
  = Windows_insert_reply
      (Windows.Insert (Toy.windows_manager Toy.items) "items"
         Toy.windows_record "default").
Proof.
  intros wa.
  exact (Windows_space_of_wrong_type (E := Toy.engine) 1
           (Toy.windows_manager Toy.items) wa "items" Toy.windows_record
           (Windows.EvInt32 7) eq_refl eq_refl eq_refl eq_refl).
Defined.
